(** * wifi-tally-esp32: the control loop of the tally light

    A shallow embedding of [src/tally/ESP32-ArduinoIDE-WebUI.ino]
    (functions [loop], [checkWiFiConnection], [logMessage],
    [logMessageOnce], [updateLEDs], [handleReceivedMessage],
    [diffMicroSeconds] and [sendTallyStatus]) together with the facts
    about it that the specification states.

    Conventions.
    - The target is the ESP32: [int] is a 32-bit two's complement
      integer, [unsigned long] a 32-bit unsigned integer.  Machine
      integers are values of [Z]; every narrowing the C++ code performs
      is written out ([to_uint8], [to_uint16], [to_uint32], [to_int32]).
    - C strings are [list ascii] without the terminating NUL; the
      Arduino [String] object [lastStatus] is a [string].
    - Everything the sketch reads from the outside world during one
      call of [loop] (link status, datagram, clocks, button, and the
      indeterminate contents of uninitialised stack memory) is a field
      of the record [Env]; everything it does to the outside world is
      an [Event].  A procedure is a function from the global state to
      the new state and the events it produced, in order. *)

From Stdlib Require Import ZArith Ascii String Bool Lia.
From stdpp Require Import base list strings gmap.

Open Scope Z_scope.

(** ** Machine integers *)

Definition to_uint8 (z : Z) : Z := z mod 256.
Definition to_uint16 (z : Z) : Z := z mod 65536.
Definition to_uint32 (z : Z) : Z := z mod 4294967296.
Definition to_int32 (z : Z) : Z := (z + 2147483648) mod 4294967296 - 2147483648.

Definition INT_MAX : Z := 2147483647.
Definition INT_MIN : Z := -2147483648.
Definition ULONG_MAX : Z := 4294967295.

(** [int * int] as the target computes it: the low 32 bits of the
    product, read as a signed number. *)
Definition int_mul (a b : Z) : Z := to_int32 (a * b).

(** ** The C library: [strlen], [isspace], [sscanf]

    [sscanf] is not part of the repository; it is modelled after
    ISO C (7.21.6.2) for the directives the sketch uses: ordinary
    characters, white space, [%d] and [%x] without field width. *)

Definition code (c : ascii) : Z := Z.of_N (N_of_ascii c).

Definition NUL : ascii := "000"%char.

Definition isspace (c : ascii) : bool :=
  (code c =? 32) || ((9 <=? code c) && (code c <=? 13)).

Definition strlen (s : list ascii) : Z := Z.of_nat (length s).

(** Value of [c] as a digit in base 10 or 16. *)
Definition digit_of (base : Z) (c : ascii) : option Z :=
  let n := code c in
  if (48 <=? n) && (n <=? 57) then Some (n - 48)
  else if (base =? 16) && (97 <=? n) && (n <=? 102) then Some (n - 87)
  else if (base =? 16) && (65 <=? n) && (n <=? 70) then Some (n - 55)
  else None.

Fixpoint skip_ws (s : list ascii) : list ascii :=
  match s with
  | c :: r => if isspace c then skip_ws r else s
  | [] => []
  end.

(** Longest run of digits at the head of [s]: accumulated value,
    whether at least one digit was seen, unread input. *)
Fixpoint scan_digits (base acc : Z) (seen : bool) (s : list ascii)
  : Z * bool * list ascii :=
  match s with
  | c :: r =>
      match digit_of base c with
      | Some d => scan_digits base (acc * base + d) true r
      | None => (acc, seen, s)
      end
  | [] => (acc, seen, [])
  end.

Definition scan_sign (s : list ascii) : bool * list ascii :=
  match s with
  | c :: r =>
      if Ascii.eqb c "-" then (true, r)
      else if Ascii.eqb c "+" then (false, r)
      else (false, s)
  | [] => (false, [])
  end.

(** The optional [0x] / [0X] prefix a [%x] conversion accepts. *)
Definition scan_0x (s : list ascii) : list ascii :=
  match s with
  | z :: x :: r =>
      if Ascii.eqb z "0" && (Ascii.eqb x "x" || Ascii.eqb x "X") then r else s
  | _ => s
  end.

(** [%d]: white space is skipped, then an optional sign and a non-empty
    run of decimal digits is converted as [strtol] does (out-of-range
    values saturate) and stored in an [int]. *)
Definition conv_d (s : list ascii) : option (Z * list ascii) :=
  let '(neg, s1) := scan_sign (skip_ws s) in
  let '(v, seen, rest) := scan_digits 10 0 false s1 in
  if seen
  then Some (Z.max INT_MIN (Z.min INT_MAX (if neg then - v else v)), rest)
  else None.

(** [%x]: as [%d] with an optional [0x] prefix and hexadecimal digits,
    converted as [strtoul] does; the sketch passes an [int *], so the
    32 bits are read back as a signed number. *)
Definition conv_x (s : list ascii) : option (Z * list ascii) :=
  let '(neg, s1) := scan_sign (skip_ws s) in
  let '(v, seen, rest) := scan_digits 16 0 false (scan_0x s1) in
  if seen
  then let u := Z.min ULONG_MAX v in
       Some (to_int32 (if neg then - u else u), rest)
  else None.

Inductive directive : Type :=
  | Lit (c : ascii)
  | White
  | ConvD
  | ConvX.

(** Reading of a format string into its directives. *)
Fixpoint parse_format (f : list ascii) : list directive :=
  match f with
  | [] => []
  | c :: r =>
      if Ascii.eqb c "%" then
        match r with
        | k :: r' =>
            if Ascii.eqb k "d" then ConvD :: parse_format r'
            else if Ascii.eqb k "x" then ConvX :: parse_format r'
            else Lit k :: parse_format r'
        | [] => []
        end
      else if isspace c then White :: parse_format r
      else Lit c :: parse_format r
  end.

(** Execution of the directives on the input: the converted values, in
    order, up to the first directive that fails. *)
Fixpoint scan (fmt : list directive) (input : list ascii) : list Z :=
  match fmt with
  | [] => []
  | Lit c :: fmt' =>
      match input with
      | c' :: r => if Ascii.eqb c c' then scan fmt' r else []
      | [] => []
      end
  | White :: fmt' => scan fmt' (skip_ws input)
  | ConvD :: fmt' =>
      match conv_d input with
      | Some (v, r) => v :: scan fmt' r
      | None => []
      end
  | ConvX :: fmt' =>
      match conv_x input with
      | Some (v, r) => v :: scan fmt' r
      | None => []
      end
  end.

(** The eight [int] locals of [handleReceivedMessage]. *)
Record Locals : Type := mkLocals {
  opR : Z; opG : Z; opB : Z;
  stR : Z; stG : Z; stB : Z;
  patternNumber : Z;
  duration : Z
}.

Definition command_format : list directive :=
  parse_format (list_ascii_of_string "O%d/%d/%d S%d/%d/%d 0x%x %d").

(** Whether the input ends before the first conversion has completed
    (an input failure: an ordinary character or the first conversion
    finds nothing left to read), in which case [sscanf] returns EOF. *)
Fixpoint input_fails_first (fmt : list directive) (input : list ascii) : bool :=
  match fmt with
  | [] => false
  | Lit c :: fmt' =>
      match input with
      | c' :: r => if Ascii.eqb c c' then input_fails_first fmt' r else false
      | [] => true
      end
  | White :: fmt' => input_fails_first fmt' (skip_ws input)
  | ConvD :: _ | ConvX :: _ =>
      match skip_ws input with
      | [] => true
      | _ :: _ => false
      end
  end.

Definition EOF : Z := -1.

(** [sscanf(data, "O%d/%d/%d S%d/%d/%d 0x%x %d", &opR, ..., &duration)]:
    the k-th converted value is stored through the k-th pointer; a
    local whose conversion was not reached keeps the value [g] it had
    before the call.  Returns the number of assignments, or EOF when
    the input ends before the first conversion; the sketch discards
    the result. *)
Definition sscanf_command (data : list ascii) (g : Locals) : Z * Locals :=
  let vals := scan command_format data in
  (if input_fails_first command_format data then EOF
   else Z.of_nat (length vals),
   {| opR := default (opR g) (vals !! 0%nat);
      opG := default (opG g) (vals !! 1%nat);
      opB := default (opB g) (vals !! 2%nat);
      stR := default (stR g) (vals !! 3%nat);
      stG := default (stG g) (vals !! 4%nat);
      stB := default (stB g) (vals !! 5%nat);
      patternNumber := default (patternNumber g) (vals !! 6%nat);
      duration := default (duration g) (vals !! 7%nat) |}).

Definition str (s : string) : list ascii := list_ascii_of_string s.

(** [snprintf(buffer, size, fmt, arg)] for a format whose only
    conversion is [%s]: the expansion, cut to [size - 1] characters. *)
Fixpoint expand_s (fmt arg : list ascii) : list ascii :=
  match fmt with
  | [] => []
  | c :: r =>
      if Ascii.eqb c "%" then
        match r with
        | k :: r' =>
            if Ascii.eqb k "s" then arg ++ expand_s r' arg
            else k :: expand_s r' arg
        | [] => []
        end
      else c :: expand_s r arg
  end.

Definition snprintf_s (size : nat) (fmt arg : list ascii) : list ascii :=
  take (size - 1) (expand_s fmt arg).

(** The characters of a [char] array up to its first NUL. *)
Fixpoint c_str (buf : list ascii) : list ascii :=
  match buf with
  | [] => []
  | c :: r => if Ascii.eqb c NUL then [] else c :: c_str r
  end.

(** ** The device: state, environment, events *)

(** The globals of the sketch that the control loop touches.  [strip]
    is the pixel buffer of the [Adafruit_NeoPixel] object, one packed
    [0x00RRGGBB] colour per LED. *)
Record State : Type := mkState {
  deviceName : list ascii;
  hubIp : list ascii;
  hubPort : Z;
  ledCount : Z;
  strip : list Z;
  timeLastPackageReceived : Z;
  lastStatus : string
}.

Definition set_strip (px : list Z) (s : State) : State :=
  mkState (deviceName s) (hubIp s) (hubPort s) (ledCount s) px
          (timeLastPackageReceived s) (lastStatus s).

Definition set_timeLastPackageReceived (t : Z) (s : State) : State :=
  mkState (deviceName s) (hubIp s) (hubPort s) (ledCount s) (strip s)
          t (lastStatus s).

Definition set_lastStatus (m : string) (s : State) : State :=
  mkState (deviceName s) (hubIp s) (hubPort s) (ledCount s) (strip s)
          (timeLastPackageReceived s) m.

(** What one call of [loop] reads from outside, in the order of the
    reads.  Clock readings are reduced to 32 bits where they are used. *)
Record Env : Type := mkEnv {
  wifi_check : bool;      (* WiFi.status() == WL_CONNECTED in checkWiFiConnection *)
  wifi_loop : bool;       (* the same test in loop *)
  packet : list ascii;    (* the pending datagram, [] when there is none *)
  stack : nat -> ascii;   (* incomingPacket before udp.read *)
  locals : Locals;        (* the int locals before sscanf *)
  micros_recv : Z;        (* micros() in handleReceivedMessage *)
  micros_diff : Z;        (* micros() in diffMicroSeconds *)
  millis_now : Z;         (* millis() in loop *)
  wifi_send : bool;       (* WiFi.status() == WL_CONNECTED in sendTallyStatus *)
  button_low : bool       (* digitalRead(RESET_BUTTON_PIN) == LOW *)
}.

Inductive Event : Type :=
  | SerialLine (line : string)
  | StripShow (pixels : list Z)
  | Delay (ms : Z)
  | UdpSend (host : list ascii) (port : Z) (payload : list ascii)
  | WifiReconnect
  | ResetSettings.

Definition Proc : Type := State -> State * list Event.

Definition skip : Proc := fun s => (s, []).
Definition emit (ev : Event) : Proc := fun s => (s, [ev]).
Definition andthen (p q : Proc) : Proc := fun s =>
  let '(s1, l1) := p s in
  let '(s2, l2) := q s1 in
  (s2, l1 ++ l2).

Declare Scope proc_scope.
Delimit Scope proc_scope with proc.
Bind Scope proc_scope with Proc.
Notation "p ;; q" := (andthen p q)
  (at level 100, q at level 200, right associativity) : proc_scope.

(** ** The procedures of the sketch *)

Definition logMessage (level message : string) : Proc :=
  emit (SerialLine (level ++ ": " ++ message)).

Definition logMessageOnce (message : string) : Proc := fun s =>
  if String.eqb (lastStatus s) message then (s, [])
  else (set_lastStatus message s, [SerialLine message]).

(** [Adafruit_NeoPixel::Color(uint8_t, uint8_t, uint8_t)]. *)
Definition Color (r g b : Z) : Z :=
  Z.lor (Z.shiftl (to_uint8 r) 16) (Z.lor (Z.shiftl (to_uint8 g) 8) (to_uint8 b)).

(** [Adafruit_NeoPixel::setPixelColor(uint16_t n, uint32_t c)]: an
    index past the end of the strip is ignored. *)
Definition setPixelColor (n c : Z) (px : list Z) : list Z :=
  <[Z.to_nat (to_uint16 n) := c]> px.

(** [for (int i = ...; i < ledCount; i++) strip.setPixelColor(i, c)],
    with [k] iterations left. *)
Fixpoint updateLEDs_loop (k : nat) (i c : Z) (px : list Z) : list Z :=
  match k with
  | O => px
  | S k' => updateLEDs_loop k' (i + 1) c (setPixelColor i c px)
  end.

Definition updateLEDs (r g b : Z) : Proc := fun s =>
  let px := updateLEDs_loop (Z.to_nat (ledCount s)) 0 (Color r g b) (strip s) in
  (set_strip px s, [StripShow px]).

Definition handleReceivedMessage (e : Env) (data : list ascii) : Proc := fun s =>
  let s0 := set_timeLastPackageReceived (to_uint32 (micros_recv e)) s in
  let v := snd (sscanf_command data (locals e)) in
  ((if 25 <? strlen data
    then updateLEDs (opR v) (opG v) (opB v) ;;
         emit (Delay (to_uint32 (int_mul (duration v) 1000)))
    else updateLEDs (opR v) (opG v) (opB v)) ;;
   logMessage "INFO" (string_of_list_ascii data))%proc s0.

(** [now] is the reading of [micros()] the function takes. *)
Definition diffMicroSeconds (now time : Z) : Z :=
  if now <? time then to_uint32 (now + (4294967295 - time))
  else to_uint32 (now - time).

(** [udp.beginPacket(const char *host, uint16_t port)] keeps the low
    16 bits of [hubPort]. *)
Definition sendTallyStatus (e : Env) (status name : list ascii) : Proc := fun s =>
  if wifi_send e
  then (emit (UdpSend (hubIp s) (to_uint16 (hubPort s))
                (snprintf_s 128 status name)) ;;
        logMessageOnce "Sent status to hub")%proc s
  else logMessageOnce "Failed to send status, not connected to WiFi" s.

Definition checkWiFiConnection (e : Env) : Proc :=
  if wifi_check e then skip
  else (logMessageOnce "RECONNECTING TO WIFI" ;; emit WifiReconnect ;;
        emit (Delay 1000))%proc.

(** *** The body of [loop] *)

Definition quote : ascii := "034"%char.

Definition status_format : list ascii :=
  str "tally-ho " ++ quote :: str "%s" ++ [quote].

(** [char incomingPacket[255]] as the stack leaves it. *)
Definition incomingPacket (e : Env) : list ascii := map (stack e) (seq 0 255).

(** [udp.read(buffer, n)]: copies at most [n] bytes of the datagram to
    the front of the buffer and returns their number. *)
Definition udp_read (pkt buf : list ascii) (n : nat) : Z * list ascii :=
  let got := take n pkt in
  (Z.of_nat (length got), got ++ drop (length got) buf).

(** [buf[i] = c].  [None] when [i] is not an index of the array: the
    store is then undefined behaviour. *)
Definition store_char (buf : list ascii) (i : Z) (c : ascii) : option (list ascii) :=
  if (0 <=? i) && (i <? Z.of_nat (length buf))
  then Some (<[Z.to_nat i := c]> buf)
  else None.

(** Lines 122-130: the UDP receive step. *)
Definition receive (e : Env) (s : State) : option (State * list Event) :=
  let packetSize := Z.of_nat (length (packet e)) in
  if packetSize =? 0 then Some (s, [])
  else
    let '(len, buf) := udp_read (packet e) (incomingPacket e) 255 in
    if 0 <? len then
      match store_char buf len NUL with
      | Some buf' => Some (handleReceivedMessage e (c_str buf') s)
      | None => None
      end
    else Some (s, []).

(** Lines 132-138: the connectivity watchdog. *)
Definition watchdog (e : Env) : Proc := fun s =>
  if 3000000 <? diffMicroSeconds (to_uint32 (micros_diff e)) (timeLastPackageReceived s)
  then (updateLEDs 255 0 0 ;; logMessageOnce "DISCONNECTED")%proc s
  else logMessageOnce "CONNECTED" s.

(** [millis() % 1000 < 100]. *)
Definition heartbeat_due (e : Env) : bool :=
  to_uint32 (millis_now e) mod 1000 <? 100.

(** Lines 140-142: the heartbeat. *)
Definition heartbeat (e : Env) : Proc := fun s =>
  if heartbeat_due e
  then sendTallyStatus e status_format (deviceName s) s
  else (s, []).

Inductive Outcome : Type :=
  | Running (s : State)
  | Restarted
  | MemoryFault.

(** Lines 119-143.  The state is [None] when the receive step stored
    outside the buffer.  ([currentTime] of line 132 is never read.) *)
Definition loop_network (e : Env) (s : State) : option State * list Event :=
  let '(s1, l1) := checkWiFiConnection e s in
  if wifi_loop e then
    match receive e s1 with
    | Some (s2, l2) =>
        let '(s3, l3) := (watchdog e ;; heartbeat e)%proc s2 in
        (Some s3, l1 ++ l2 ++ l3)
    | None => (None, l1)
    end
  else (Some s1, l1).

Definition loop (e : Env) (s : State) : Outcome * list Event :=
  match loop_network e s with
  | (Some s', l) =>
      if button_low e
      then (Restarted,
            l ++ [SerialLine "Reset button pressed, entering config mode...";
                  Delay 1000; ResetSettings])
      else (Running s', l)
  | (None, l) => (MemoryFault, l)
  end.

(** Successive calls of [loop], one per element of [envs], until the
    device restarts or faults: the events produced. *)
Fixpoint run (envs : list Env) (s : State) : list Event :=
  match envs with
  | [] => []
  | e :: envs' =>
      match loop e s with
      | (Running s', l) => l ++ run envs' s'
      | (_, l) => l
      end
  end.

(** The globals after [setup] with the default configuration. *)
Definition initial_state : State :=
  {| deviceName := str "device-name";
     hubIp := str "10.4.20.41";
     hubPort := 7411;
     ledCount := 16;
     strip := replicate 16 0;
     timeLastPackageReceived := 0;
     lastStatus := "" |}.

(** ** Well-formed command text

    The text of a command the hub sends: eight numerals, the seventh
    hexadecimal, laid out as [O<r>/<g>/<b> S<r>/<g>/<b> 0x<hex> <dec>]. *)

Record CommandText : Type := mkText {
  tOpR : list ascii; tOpG : list ascii; tOpB : list ascii;
  tStR : list ascii; tStG : list ascii; tStB : list ascii;
  tPattern : list ascii;
  tDuration : list ascii
}.

Definition command_text (t : CommandText) : list ascii :=
  "O"%char :: tOpR t ++ "/"%char :: tOpG t ++ "/"%char :: tOpB t ++
  " "%char :: "S"%char :: tStR t ++ "/"%char :: tStG t ++ "/"%char :: tStB t ++
  " "%char :: "0"%char :: "x"%char :: tPattern t ++
  " "%char :: tDuration t.

Definition is_digit (base : Z) (c : ascii) : bool :=
  match digit_of base c with Some _ => true | None => false end.

(** The number a numeral denotes in positional notation. *)
Definition numeral (base : Z) (ds : list ascii) : Z :=
  fold_left (fun a c => a * base + default 0 (digit_of base c)) ds 0.

(** A non-empty run of digits whose value fits an [int]. *)
Definition is_numeral (base : Z) (ds : list ascii) : bool :=
  negb (Nat.eqb (length ds) 0) && forallb (is_digit base) ds &&
  (numeral base ds <=? INT_MAX).

Definition well_formed (t : CommandText) : bool :=
  is_numeral 10 (tOpR t) && is_numeral 10 (tOpG t) && is_numeral 10 (tOpB t) &&
  is_numeral 10 (tStR t) && is_numeral 10 (tStG t) && is_numeral 10 (tStB t) &&
  is_numeral 16 (tPattern t) && is_numeral 10 (tDuration t).

(** The values a well-formed text spells out. *)
Definition literal_values (t : CommandText) : Locals :=
  {| opR := numeral 10 (tOpR t);
     opG := numeral 10 (tOpG t);
     opB := numeral 10 (tOpB t);
     stR := numeral 10 (tStR t);
     stG := numeral 10 (tStG t);
     stB := numeral 10 (tStB t);
     patternNumber := numeral 16 (tPattern t);
     duration := numeral 10 (tDuration t) |}.

(** ** Observations on event sequences *)

(** The frames sent to the strip. *)
Definition rendered (l : list Event) : list (list Z) :=
  omap (fun ev => match ev with StripShow px => Some px | _ => None end) l.

(** The datagrams sent to the hub. *)
Definition heartbeats (l : list Event) : list (list ascii) :=
  omap (fun ev => match ev with UdpSend _ _ p => Some p | _ => None end) l.

(** The holds ([delay]) in milliseconds. *)
Definition holds (l : list Event) : list Z :=
  omap (fun ev => match ev with Delay ms => Some ms | _ => None end) l.

Inductive ConnectionState : Type := CONNECTED | DISCONNECTED.

Definition state_name (c : ConnectionState) : string :=
  match c with CONNECTED => "CONNECTED" | DISCONNECTED => "DISCONNECTED" end.

(** The connectivity messages among the lines printed. *)
Definition connectivity_log (l : list Event) : list string :=
  omap (fun ev =>
          match ev with
          | SerialLine m =>
              if String.eqb m "CONNECTED" || String.eqb m "DISCONNECTED"
              then Some m else None
          | _ => None
          end) l.

(** The branch the watchdog takes in state [s]. *)
Definition watchdog_state (e : Env) (s : State) : ConnectionState :=
  if 3000000 <? diffMicroSeconds (to_uint32 (micros_diff e)) (timeLastPackageReceived s)
  then DISCONNECTED else CONNECTED.

(** The watchdog state of one call of [loop] started in [s], when the
    call reaches the watchdog. *)
Definition iteration_state (e : Env) (s : State) : option ConnectionState :=
  if wifi_loop e then
    match receive e (fst (checkWiFiConnection e s)) with
    | Some (s2, _) => Some (watchdog_state e s2)
    | None => None
    end
  else None.

(** The watchdog states of the successive calls of [run]. *)
Fixpoint watchdog_states (envs : list Env) (s : State) : list ConnectionState :=
  match envs with
  | [] => []
  | e :: envs' =>
      let here := match iteration_state e s with Some c => [c] | None => [] end in
      match loop e s with
      | (Running s', _) => here ++ watchdog_states envs' s'
      | _ => here
      end
  end.

(** The elements of [l] that differ from their predecessor, [prev]
    being the predecessor of the first. *)
Fixpoint changes (prev : string) (l : list string) : list string :=
  match l with
  | [] => []
  | x :: l' => if String.eqb prev x then changes x l' else x :: changes x l'
  end.

(** An iteration in which no status message other than the watchdog's
    is printed: the link is up at the first test and no heartbeat is
    due. *)
Definition quiet (e : Env) : bool :=
  wifi_check e && (negb (wifi_loop e) || negb (heartbeat_due e)).

(** The strip has as many pixels as [ledCount] says. *)
Definition strip_sized (s : State) : Prop :=
  Z.of_nat (length (strip s)) = ledCount s /\ ledCount s <= 65535.

(** The input [rest] stops a run of digits in base [base]. *)
Definition stops (base : Z) (rest : list ascii) : Prop :=
  match rest with
  | [] => True
  | c :: _ => digit_of base c = None
  end.

(** The datagrams sent, each with its destination host and port. *)
Definition datagrams (l : list Event) : list (list ascii * Z * list ascii) :=
  omap (fun ev => match ev with UdpSend h p d => Some (h, p, d) | _ => None end) l.

(** The lines printed on the serial port. *)
Definition serial_lines (l : list Event) : list string :=
  omap (fun ev => match ev with SerialLine m => Some m | _ => None end) l.

(** An iteration that finds the link down at both tests, the button
    released. *)
Definition link_down (e : Env) : bool :=
  negb (wifi_check e) && negb (wifi_loop e) && negb (button_low e).

(** [s'] has the configuration and the strip length of [s]. *)
Definition same_config (s s' : State) : Prop :=
  deviceName s' = deviceName s /\ hubIp s' = hubIp s /\
  hubPort s' = hubPort s /\ ledCount s' = ledCount s /\
  length (strip s') = length (strip s).

(** ** The configuration: web form and configuration file

    The handler of [/get] in [startWebServer] (lines 212-235),
    [saveConfigCallback] (lines 162-181) and [loadConfig] (lines
    183-199).  The five configurable globals form a record of their
    own; [deviceName] is a [char[32]], [hubIp] a [char[16]], the
    others are [int]. *)

Record Config : Type := mkConfig {
  cfg_deviceName : list ascii;
  cfg_hubIp : list ascii;
  cfg_hubPort : Z;
  cfg_ledPin : Z;
  cfg_ledCount : Z
}.

(** [strcpy(dst, src)] into an array of [size] chars: the new content
    of the array as a C string, or [None] when the copy, terminator
    included, runs past the end of the array. *)
Definition strcpy (size : nat) (src : list ascii) : option (list ascii) :=
  if (length (c_str src) <? size)%nat then Some (c_str src) else None.

(** [String::toInt()], that is [atol] on the characters: leading white
    space, an optional sign and decimal digits are read as [strtol]
    reads them; 0 when no digit is found. *)
Definition toInt (s : list ascii) : Z :=
  match conv_d (c_str s) with
  | Some (v, _) => v
  | None => 0
  end.

(** The query parameters of a request, in the order received;
    [getParam] returns the first one of the given name. *)
Fixpoint getParam (name : string) (params : list (string * list ascii))
  : option (list ascii) :=
  match params with
  | [] => None
  | (k, v) :: params' =>
      if String.eqb k name then Some v else getParam name params'
  end.

(** Lines 213-233: the assignments of the [/get] handler.  [None] when
    one of the two [strcpy] overflows its array. *)
Definition handle_get (params : list (string * list ascii)) (c : Config)
  : option Config :=
  name ← match getParam "deviceName" params with
          | Some v => strcpy 32 v
          | None => Some (cfg_deviceName c)
          end;
  ip ← match getParam "hubIp" params with
        | Some v => strcpy 16 v
        | None => Some (cfg_hubIp c)
        end;
  Some {| cfg_deviceName := name;
          cfg_hubIp := ip;
          cfg_hubPort := match getParam "hubPort" params with
                         | Some v => toInt v
                         | None => cfg_hubPort c
                         end;
          cfg_ledPin := match getParam "ledPin" params with
                        | Some v => toInt v
                        | None => cfg_ledPin c
                        end;
          cfg_ledCount := match getParam "ledCount" params with
                          | Some v => toInt v
                          | None => cfg_ledCount c
                          end |}.

(** A JSON value as the sketch stores and reads it, and the content
    of [/config.json]: a document [deserializeJson] accepts, as the
    map from its keys to their values, or text it rejects. *)
Inductive JsonValue : Type :=
  | JString (s : list ascii)
  | JInt (n : Z).

Inductive FileContent : Type :=
  | Json (doc : gmap string JsonValue)
  | Unparsable.

(** The document [saveConfigCallback] builds, key by key. *)
Definition config_document (c : Config) : gmap string JsonValue :=
  <["ledCount"%string := JInt (cfg_ledCount c)]>
    (<["ledPin"%string := JInt (cfg_ledPin c)]>
       (<["hubPort"%string := JInt (cfg_hubPort c)]>
          (<["hubIp"%string := JString (cfg_hubIp c)]>
             (<["deviceName"%string := JString (cfg_deviceName c)]> ∅)))).

(** [saveConfigCallback]: the file after the call and the lines
    printed; [open_ok] tells whether [SPIFFS.open(..., "w")] gave a
    file.  The text [serializeJson] writes is taken to parse back to
    the document it was made from (which the 1024 bytes of the
    document hold, the strings being at most 31 and 15 characters).
    The callback ends in [ESP.restart()]. *)
Definition saveConfigCallback (open_ok : bool) (c : Config)
    (file : option FileContent) : option FileContent * list Event :=
  if open_ok
  then (Some (Json (config_document c)), [SerialLine "Saving config"])
  else (file, [SerialLine "Saving config";
               SerialLine "Failed to open config file for writing"]).

(** The whole [/get] handler: assignments, then [saveConfigCallback]. *)
Definition get_request (params : list (string * list ascii)) (open_ok : bool)
    (c : Config) (file : option FileContent)
  : option (Config * (option FileContent * list Event)) :=
  c' ← handle_get params c;
  Some (c', saveConfigCallback open_ok c' file).

(** [json[key]] converted to [const char *]: a null pointer unless the
    value is a string. *)
Definition as_c_str (v : option JsonValue) : option (list ascii) :=
  match v with
  | Some (JString s) => Some s
  | _ => None
  end.

(** [json[key]] converted to [int]: the number when it is an integer
    an [int] can hold, 0 when it is another integer or the key is
    missing; [parse_number] stands for what ArduinoJson reads out of
    a string value. *)
Definition as_int (parse_number : list ascii -> Z) (v : option JsonValue) : Z :=
  match v with
  | Some (JInt n) => if (INT_MIN <=? n) && (n <=? INT_MAX) then n else 0
  | Some (JString s) => parse_number s
  | None => 0
  end.

(** [loadConfig]: the globals after the call, or [None] when a
    [strcpy] reads a null pointer or overflows its array.  [file] is
    [None] when [/config.json] does not exist; [open_ok] tells whether
    [SPIFFS.open(..., "r")] gave a file. *)
Definition loadConfig (parse_number : list ascii -> Z) (open_ok : bool)
    (file : option FileContent) (c : Config) : option Config :=
  match file with
  | None => Some c
  | Some content =>
      if open_ok then
        match content with
        | Unparsable => Some c
        | Json doc =>
            name ← as_c_str (doc !! "deviceName"%string) ≫= strcpy 32;
            ip ← as_c_str (doc !! "hubIp"%string) ≫= strcpy 16;
            Some {| cfg_deviceName := name;
                    cfg_hubIp := ip;
                    cfg_hubPort := as_int parse_number (doc !! "hubPort"%string);
                    cfg_ledPin := as_int parse_number (doc !! "ledPin"%string);
                    cfg_ledCount := as_int parse_number (doc !! "ledCount"%string) |}
        end
      else Some c
  end.

Definition fits_int (z : Z) : bool := (INT_MIN <=? z) && (z <=? INT_MAX).

(** The strings are C strings that fit their arrays and the numbers
    fit an [int]. *)
Definition config_fits (c : Config) : bool :=
  (length (cfg_deviceName c) <? 32)%nat &&
  forallb (fun a => negb (Ascii.eqb a NUL)) (cfg_deviceName c) &&
  (length (cfg_hubIp c) <? 16)%nat &&
  forallb (fun a => negb (Ascii.eqb a NUL)) (cfg_hubIp c) &&
  fits_int (cfg_hubPort c) && fits_int (cfg_ledPin c) && fits_int (cfg_ledCount c).

(** The configuration the sketch starts with. *)
Definition default_config : Config :=
  mkConfig (str "device-name") (str "10.4.20.41") 7411 16 16.

(** ** The hub: [ExternalLink]

    [src/hub/components/ExternalLink.tsx].  A props object is a map
    from property names to values; a value is a string or anything
    else, of which only the identity matters here. *)

Inductive PropValue : Type :=
  | PString (s : string)
  | POther (id : nat).

Record Element : Type := mkElement {
  el_type : string;
  el_props : gmap string PropValue
}.

(** [{...a, ...b}]: the properties of [a], then those of [b] over
    them. *)
Definition spread (a b : gmap string PropValue) : gmap string PropValue := b ∪ a.

Definition ExternalLink (props : gmap string PropValue) : Element :=
  let myProps :=
    spread props
      (<["rel"%string := PString "noreferrer noopener"]>
         (<["target"%string := PString "_blank"]> ∅)) in
  {| el_type := "Link"; el_props := myProps |}.

(** *** Sample inputs *)

(** An iteration with the link up and the button released: datagram
    [pkt], clock readings [t_recv] and [t_diff] (microseconds) and [ms]
    (milliseconds); uninitialised memory holds [-1] and ['?']. *)
Definition sample_env (pkt : list ascii) (t_recv t_diff ms : Z) : Env :=
  {| wifi_check := true;
     wifi_loop := true;
     packet := pkt;
     stack := fun _ => "?"%char;
     locals := mkLocals (-1) (-1) (-1) (-1) (-1) (-1) (-1) (-1);
     micros_recv := t_recv;
     micros_diff := t_diff;
     millis_now := ms;
     wifi_send := true;
     button_low := false |}.

(** The example of the specification, ["O255/0/0 S0/0/255 0x01 5"]. *)
Definition sample_text : CommandText :=
  mkText (str "255") (str "0") (str "0") (str "0") (str "0") (str "255")
         (str "01") (str "5").

(** The same command with padded colour fields, 32 characters long. *)
Definition sample_timed_text : CommandText :=
  mkText (str "255") (str "000") (str "000") (str "000") (str "000") (str "255")
         (str "01") (str "5").

(** * Properties *)

(** ** Scanning numerals *)

Lemma scan_digits_run (base : Z) (ds rest : list ascii) :
  forallb (is_digit base) ds = true ->
  stops base rest ->
  forall acc seen,
    scan_digits base acc seen (ds ++ rest)
    = (fold_left (fun a c => a * base + default 0 (digit_of base c)) ds acc,
       seen || negb (Nat.eqb (length ds) 0), rest).
Proof.
  intros Hds Hrest.
  induction ds as [|c ds IH]; intros acc seen.
  - simpl. rewrite orb_false_r.
    destruct rest as [|c r]; [reflexivity|].
    simpl in *. now rewrite Hrest.
  - simpl in Hds. apply andb_true_iff in Hds as [Hc Hds].
    simpl. unfold is_digit in Hc.
    destruct (digit_of base c) as [d|] eqn:Hd; [|discriminate].
    rewrite (IH Hds). simpl.
    now rewrite !orb_true_r.
Qed.

Lemma digit_is_plain (c : ascii) :
  is_digit 16 c = true ->
  isspace c = false /\ Ascii.eqb c "-" = false /\ Ascii.eqb c "+" = false /\
  Ascii.eqb c "x" = false /\ Ascii.eqb c "X" = false.
Proof.
  destruct c as [[] [] [] [] [] [] [] []]; vm_compute; intros H;
    first [discriminate H | repeat split].
Qed.

Lemma decimal_is_hex (c : ascii) : is_digit 10 c = true -> is_digit 16 c = true.
Proof.
  unfold is_digit, digit_of. simpl.
  destruct ((48 <=? code c) && (code c <=? 57)); [reflexivity|discriminate].
Qed.

Lemma digit_of_nonneg (base : Z) (c : ascii) (d : Z) :
  digit_of base c = Some d -> 0 <= d.
Proof.
  unfold digit_of.
  destruct ((48 <=? code c) && (code c <=? 57)) eqn:H1.
  { intros [= <-]. apply andb_true_iff in H1 as [H1 _]. lia. }
  destruct ((base =? 16) && (97 <=? code c) && (code c <=? 102)) eqn:H2.
  { intros [= <-]. apply andb_true_iff in H2 as [H2 _].
    apply andb_true_iff in H2 as [_ H2]. lia. }
  destruct ((base =? 16) && (65 <=? code c) && (code c <=? 70)) eqn:H3.
  { intros [= <-]. apply andb_true_iff in H3 as [H3 _].
    apply andb_true_iff in H3 as [_ H3]. lia. }
  discriminate.
Qed.

Lemma fold_digits_nonneg (base : Z) (ds : list ascii) :
  0 <= base ->
  forall acc, 0 <= acc ->
    0 <= fold_left (fun a c => a * base + default 0 (digit_of base c)) ds acc.
Proof.
  intros Hb. induction ds as [|c ds IH]; intros acc Hacc; simpl; [assumption|].
  apply IH. destruct (digit_of base c) as [d|] eqn:Hd; simpl.
  - apply digit_of_nonneg in Hd. nia.
  - nia.
Qed.

Lemma numeral_nonneg (base : Z) (ds : list ascii) : 0 <= base -> 0 <= numeral base ds.
Proof. intros Hb. apply fold_digits_nonneg; lia. Qed.

(** The three facts [is_numeral] packs. *)
Lemma is_numeral_inv (base : Z) (ds : list ascii) :
  is_numeral base ds = true ->
  (exists c ds', ds = c :: ds' /\ is_digit base c = true) /\
  forallb (is_digit base) ds = true /\
  numeral base ds <= INT_MAX.
Proof.
  unfold is_numeral. intros H.
  apply andb_true_iff in H as [H Hmax]. apply andb_true_iff in H as [Hne Hall].
  split; [|split; [assumption|lia]].
  destruct ds as [|c ds']; [discriminate|].
  exists c, ds'. split; [reflexivity|].
  simpl in Hall. now apply andb_true_iff in Hall as [Hc _].
Qed.

Lemma conv_d_numeral (ds rest : list ascii) :
  is_numeral 10 ds = true -> stops 10 rest ->
  conv_d (ds ++ rest) = Some (numeral 10 ds, rest).
Proof.
  intros Hnum Hrest.
  destruct (is_numeral_inv _ _ Hnum) as [(c & ds' & -> & Hc) [Hall Hmax]].
  destruct (digit_is_plain c (decimal_is_hex c Hc)) as (Hsp & Hm & Hp & _).
  pose proof (numeral_nonneg 10 (c :: ds') ltac:(lia)) as Hpos.
  unfold conv_d.
  replace (skip_ws ((c :: ds') ++ rest)) with ((c :: ds') ++ rest)
    by (simpl; now rewrite Hsp).
  replace (scan_sign ((c :: ds') ++ rest)) with (false, (c :: ds') ++ rest)
    by (simpl; now rewrite Hm, Hp).
  rewrite (scan_digits_run 10 (c :: ds') rest Hall Hrest).
  fold (numeral 10 (c :: ds')).
  cbn [orb negb length Nat.eqb].
  f_equal. f_equal. unfold INT_MIN, INT_MAX in *. lia.
Qed.

Lemma conv_x_numeral (hs rest : list ascii) :
  is_numeral 16 hs = true ->
  conv_x (hs ++ " "%char :: rest) = Some (numeral 16 hs, " "%char :: rest).
Proof.
  intros Hnum.
  destruct (is_numeral_inv _ _ Hnum) as [(c & hs' & -> & Hc) [Hall Hmax]].
  destruct (digit_is_plain c Hc) as (Hsp & Hm & Hp & _).
  pose proof (numeral_nonneg 16 (c :: hs') ltac:(lia)) as Hpos.
  unfold conv_x.
  replace (skip_ws ((c :: hs') ++ " "%char :: rest))
    with ((c :: hs') ++ " "%char :: rest) by (simpl; now rewrite Hsp).
  replace (scan_sign ((c :: hs') ++ " "%char :: rest))
    with (false, (c :: hs') ++ " "%char :: rest) by (simpl; now rewrite Hm, Hp).
  replace (scan_0x ((c :: hs') ++ " "%char :: rest))
    with ((c :: hs') ++ " "%char :: rest).
  2: { destruct hs' as [|c2 hs'']; simpl.
       - destruct (Ascii.eqb c "0"); reflexivity.
       - simpl in Hall. apply andb_true_iff in Hall as [_ Hall].
         apply andb_true_iff in Hall as [Hc2 _].
         destruct (digit_is_plain c2 Hc2) as (_ & _ & _ & Hx & HX).
         rewrite Hx, HX. now rewrite andb_false_r. }
  rewrite (scan_digits_run 16 (c :: hs') (" "%char :: rest) Hall eq_refl).
  fold (numeral 16 (c :: hs')).
  cbn [orb negb length Nat.eqb].
  f_equal. f_equal. unfold to_int32, ULONG_MAX, INT_MAX in *.
  rewrite Z.min_r by lia.
  rewrite Z.mod_small by lia. lia.
Qed.

Lemma skip_ws_numeral (ds rest : list ascii) :
  is_numeral 10 ds = true -> skip_ws (ds ++ rest) = ds ++ rest.
Proof.
  intros Hnum.
  destruct (is_numeral_inv _ _ Hnum) as [(c & ds' & -> & Hc) _].
  destruct (digit_is_plain c (decimal_is_hex c Hc)) as (Hsp & _).
  simpl. now rewrite Hsp.
Qed.

Lemma command_format_directives :
  command_format
  = [Lit "O"; ConvD; Lit "/"; ConvD; Lit "/"; ConvD; White;
     Lit "S"; ConvD; Lit "/"; ConvD; Lit "/"; ConvD; White;
     Lit "0"; Lit "x"; ConvX; White; ConvD].
Proof. reflexivity. Qed.

(** ** The parser on well-formed text *)

Lemma scan_command_text (t : CommandText) :
  well_formed t = true ->
  scan command_format (command_text t)
  = [numeral 10 (tOpR t); numeral 10 (tOpG t); numeral 10 (tOpB t);
     numeral 10 (tStR t); numeral 10 (tStG t); numeral 10 (tStB t);
     numeral 16 (tPattern t); numeral 10 (tDuration t)].
Proof.
  unfold well_formed. intros H.
  do 7 (apply andb_true_iff in H as [H ?]).
  rewrite command_format_directives. unfold command_text.
  cbn [scan Ascii.eqb Bool.eqb].
  rewrite conv_d_numeral by (assumption || reflexivity).
  cbn [scan Ascii.eqb Bool.eqb].
  rewrite conv_d_numeral by (assumption || reflexivity).
  cbn [scan Ascii.eqb Bool.eqb].
  rewrite conv_d_numeral by (assumption || reflexivity).
  cbn [scan]. change (skip_ws (" "%char :: "S"%char :: ?r)) with ("S"%char :: r).
  cbn [scan Ascii.eqb Bool.eqb].
  rewrite conv_d_numeral by (assumption || reflexivity).
  cbn [scan Ascii.eqb Bool.eqb].
  rewrite conv_d_numeral by (assumption || reflexivity).
  cbn [scan Ascii.eqb Bool.eqb].
  rewrite conv_d_numeral by (assumption || reflexivity).
  cbn [scan]. change (skip_ws (" "%char :: "0"%char :: ?r)) with ("0"%char :: r).
  cbn [scan Ascii.eqb Bool.eqb].
  rewrite conv_x_numeral by assumption.
  cbn [scan].
  change (skip_ws (" "%char :: ?r)) with (skip_ws r).
  rewrite <- (app_nil_r (tDuration t)).
  rewrite skip_ws_numeral by assumption.
  rewrite conv_d_numeral by (assumption || exact I).
  rewrite !app_nil_r. reflexivity.
Qed.

Lemma command_text_reaches_conversion (t : CommandText) :
  well_formed t = true ->
  input_fails_first command_format (command_text t) = false.
Proof.
  unfold well_formed. intros H.
  do 7 (apply andb_true_iff in H as [H ?]).
  rewrite command_format_directives. unfold command_text.
  cbn [input_fails_first Ascii.eqb Bool.eqb].
  rewrite skip_ws_numeral by assumption.
  destruct (is_numeral_inv _ _ H) as [(c & ds & -> & _) _]. reflexivity.
Qed.

(** C6: for every well-formed payload [O<r>/<g>/<b> S<r>/<g>/<b> 0x<hex> <dec>]
    the scan makes all eight assignments and each local receives the
    value its numeral spells, whatever the locals held before; for
    ["O255/0/0 S0/0/255 0x01 5"] these are operator (255,0,0),
    standby (0,0,255), pattern 1, duration 5. *)
Theorem parse_well_formed (t : CommandText) (g : Locals) :
  well_formed t = true ->
  sscanf_command (command_text t) g = (8, literal_values t).
Proof.
  intros Hwf. unfold sscanf_command.
  rewrite (scan_command_text t Hwf), (command_text_reaches_conversion t Hwf).
  reflexivity.
Qed.

Lemma parse_well_formed_witness :
  well_formed sample_text = true /\
  sscanf_command (str "O255/0/0 S0/0/255 0x01 5") (mkLocals 9 9 9 9 9 9 9 9)
  = (8, mkLocals 255 0 0 0 0 255 1 5).
Proof.
  split; [reflexivity|].
  exact (parse_well_formed sample_text (mkLocals 9 9 9 9 9 9 9 9) eq_refl).
Defined.

(** ** The strip *)

Lemma updateLEDs_loop_length (k : nat) :
  forall i c px, length (updateLEDs_loop k i c px) = length px.
Proof.
  induction k as [|k IH]; intros i c px; simpl; [reflexivity|].
  rewrite IH. unfold setPixelColor. apply length_insert.
Qed.

Lemma updateLEDs_loop_keeps (k : nat) :
  forall i c (px : list Z) (n : nat),
    px !! n = Some c -> updateLEDs_loop k i c px !! n = Some c.
Proof.
  induction k as [|k IH]; intros i c px n Hn; simpl; [assumption|].
  apply IH. unfold setPixelColor.
  destruct (Nat.eq_dec (Z.to_nat (to_uint16 i)) n) as [->|Hne].
  - apply list_lookup_insert_eq. apply lookup_lt_is_Some. now exists c.
  - now rewrite list_lookup_insert_ne.
Qed.

Lemma updateLEDs_loop_sets (k : nat) :
  forall i c (px : list Z) (n : nat),
    (n < length px)%nat -> Z.of_nat n < 65536 ->
    i <= Z.of_nat n < i + Z.of_nat k ->
    updateLEDs_loop k i c px !! n = Some c.
Proof.
  induction k as [|k IH]; intros i c px n Hlen Hn Hi; simpl; [lia|].
  destruct (Z.eq_dec i (Z.of_nat n)) as [->|Hne].
  - apply updateLEDs_loop_keeps. unfold setPixelColor, to_uint16.
    rewrite Z.mod_small by lia. rewrite Nat2Z.id.
    now apply list_lookup_insert_eq.
  - apply IH; [|assumption|lia].
    unfold setPixelColor. now rewrite length_insert.
Qed.

(** With at least as many iterations as pixels, every pixel is set. *)
Lemma updateLEDs_loop_fill (k : nat) (c : Z) (px : list Z) :
  (length px <= k)%nat -> Z.of_nat (length px) <= 65536 ->
  updateLEDs_loop k 0 c px = replicate (length px) c.
Proof.
  intros Hk Hmax. apply list_eq. intros n.
  destruct (Nat.lt_ge_cases n (length px)) as [Hlt|Hge].
  - rewrite lookup_replicate_2 by assumption.
    apply updateLEDs_loop_sets; lia.
  - rewrite (lookup_ge_None_2 (replicate _ _)) by (rewrite length_replicate; lia).
    apply lookup_ge_None_2. rewrite updateLEDs_loop_length. lia.
Qed.

Lemma updateLEDs_sized (r g b : Z) (s : State) :
  strip_sized s ->
  updateLEDs r g b s
  = (set_strip (replicate (length (strip s)) (Color r g b)) s,
     [StripShow (replicate (length (strip s)) (Color r g b))]).
Proof.
  intros [Hlen Hmax]. unfold updateLEDs.
  rewrite updateLEDs_loop_fill by lia. reflexivity.
Qed.

(** ** Procedures, one by one *)

Lemma handleReceivedMessage_eq (e : Env) (data : list ascii) (s : State) :
  let v := snd (sscanf_command data (locals e)) in
  let px := updateLEDs_loop (Z.to_nat (ledCount s)) 0
              (Color (opR v) (opG v) (opB v)) (strip s) in
  handleReceivedMessage e data s
  = (set_strip px (set_timeLastPackageReceived (to_uint32 (micros_recv e)) s),
     StripShow px ::
     (if 25 <? strlen data
      then [Delay (to_uint32 (int_mul (duration v) 1000))] else []) ++
     [SerialLine ("INFO: " ++ string_of_list_ascii data)]).
Proof.
  unfold handleReceivedMessage. destruct (25 <? strlen data); reflexivity.
Qed.

Lemma logMessageOnce_lastStatus (m : string) (s : State) :
  lastStatus (fst (logMessageOnce m s)) = m.
Proof.
  unfold logMessageOnce.
  destruct (String.eqb_spec (lastStatus s) m); simpl; auto.
Qed.

(** ** Rendering of commands *)

(** C9: two well-formed payloads with the same operator fields make
    [handleReceivedMessage] send the same single frame to the strip
    and leave the same pixel buffer, whatever their standby and pattern
    fields (and duration fields) are and whatever the uninitialised
    memory held: the frame is the one painted with the operator
    colour. *)
Theorem rendering_ignores_standby_and_pattern
    (t1 t2 : CommandText) (e1 e2 : Env) (s : State) :
  well_formed t1 = true -> well_formed t2 = true ->
  tOpR t1 = tOpR t2 -> tOpG t1 = tOpG t2 -> tOpB t1 = tOpB t2 ->
  let r1 := handleReceivedMessage e1 (command_text t1) s in
  let r2 := handleReceivedMessage e2 (command_text t2) s in
  rendered (snd r1) = rendered (snd r2) /\
  strip (fst r1) = strip (fst r2) /\
  rendered (snd r1)
  = [updateLEDs_loop (Z.to_nat (ledCount s)) 0
       (Color (numeral 10 (tOpR t1)) (numeral 10 (tOpG t1)) (numeral 10 (tOpB t1)))
       (strip s)].
Proof.
  intros Hwf1 Hwf2 HR HG HB r1 r2. subst r1 r2.
  rewrite !handleReceivedMessage_eq.
  unfold sscanf_command.
  rewrite (scan_command_text t1 Hwf1), (scan_command_text t2 Hwf2).
  cbn [snd fst strip set_strip lookup list_lookup default id opR opG opB].
  rewrite HR, HG, HB.
  repeat split;
    destruct (25 <? strlen (command_text t1));
    destruct (25 <? strlen (command_text t2)); reflexivity.
Qed.

Lemma rendering_ignores_standby_and_pattern_witness :
  rendered (snd (handleReceivedMessage (sample_env [] 0 0 0)
                   (str "O255/0/0 S0/0/255 0x01 5") initial_state))
  = rendered (snd (handleReceivedMessage (sample_env [] 0 0 0)
                   (str "O255/0/0 S17/34/51 0xff 5") initial_state)).
Proof.
  exact (proj1 (rendering_ignores_standby_and_pattern
                  sample_text
                  (mkText (str "255") (str "0") (str "0")
                          (str "17") (str "34") (str "51") (str "ff") (str "5"))
                  (sample_env [] 0 0 0) (sample_env [] 0 0 0) initial_state
                  eq_refl eq_refl eq_refl eq_refl eq_refl)).
Defined.

(** C3 (amended): a command longer than 25 characters paints the strip
    with the operator colour and then holds for [duration * 1000]
    milliseconds, that is [duration] seconds, [duration] being the
    value the scan left in the local: the argument of [delay] is the
    32-bit product, which is [duration * 1000] itself for
    [0 <= duration <= 2147483]. *)
Theorem timed_command_holds_seconds (e : Env) (data : list ascii) (s : State) :
  25 < strlen data ->
  let v := snd (sscanf_command data (locals e)) in
  let px := updateLEDs_loop (Z.to_nat (ledCount s)) 0
              (Color (opR v) (opG v) (opB v)) (strip s) in
  snd (handleReceivedMessage e data s)
  = [StripShow px; Delay (to_uint32 (int_mul (duration v) 1000));
     SerialLine ("INFO: " ++ string_of_list_ascii data)] /\
  (0 <= duration v <= 2147483 ->
   holds (snd (handleReceivedMessage e data s)) = [duration v * 1000]).
Proof.
  intros Hlen v px.
  rewrite handleReceivedMessage_eq. fold v. fold px.
  apply Z.ltb_lt in Hlen. rewrite Hlen. cbn [snd app].
  split; [reflexivity|].
  intros Hd.
  change ([to_uint32 (int_mul (duration v) 1000)] = [duration v * 1000]).
  f_equal. unfold int_mul, to_int32, to_uint32.
  rewrite (Z.mod_small (duration v * 1000 + 2147483648)) by lia.
  rewrite Z.mod_small by lia. lia.
Qed.

Lemma timed_command_holds_seconds_witness :
  holds (snd (handleReceivedMessage (sample_env [] 0 0 0)
                (command_text sample_timed_text) initial_state))
  = [5000].
Proof.
  refine (proj2 (timed_command_holds_seconds (sample_env [] 0 0 0)
                   (command_text sample_timed_text) initial_state _) _).
  - reflexivity.
  - vm_compute. split; discriminate.
Defined.

(** C3 as stated fails: ["O255/000/000 S000/000/255 0x01 5"] has 32
    characters and duration field 5, and the hold is 5000 ms, not 5. *)
Lemma hold_is_not_duration_milliseconds :
  let data := str "O255/000/000 S000/000/255 0x01 5" in
  let e := sample_env data 0 0 500 in
  25 < strlen data /\
  duration (snd (sscanf_command data (locals e))) = 5 /\
  holds (snd (loop e initial_state)) = [5000] /\
  holds (snd (loop e initial_state)) <> [5].
Proof. vm_compute. repeat split; discriminate. Qed.

(** ** The watchdog *)

(** C5: when the elapsed time is exactly 3,000,000 us the watchdog
    takes the CONNECTED branch (the status becomes "CONNECTED" and no
    frame is sent); when it is 3,000,001 us or more it takes the
    DISCONNECTED branch: the status becomes "DISCONNECTED" and the
    strip is painted red (255,0,0), every pixel. *)
Theorem watchdog_boundary (e : Env) (s : State) :
  strip_sized s ->
  let elapsed :=
    diffMicroSeconds (to_uint32 (micros_diff e)) (timeLastPackageReceived s) in
  (elapsed = 3000000 ->
   watchdog_state e s = CONNECTED /\
   lastStatus (fst (watchdog e s)) = "CONNECTED"%string /\
   rendered (snd (watchdog e s)) = [] /\
   strip (fst (watchdog e s)) = strip s) /\
  (3000001 <= elapsed ->
   watchdog_state e s = DISCONNECTED /\
   lastStatus (fst (watchdog e s)) = "DISCONNECTED"%string /\
   rendered (snd (watchdog e s)) = [replicate (length (strip s)) 16711680] /\
   strip (fst (watchdog e s)) = replicate (length (strip s)) (Color 255 0 0)).
Proof.
  intros Hsz elapsed. unfold watchdog, watchdog_state. fold elapsed.
  split; intros He.
  - replace (3000000 <? elapsed) with false by (symmetry; apply Z.ltb_ge; lia).
    split; [reflexivity|]. split; [apply logMessageOnce_lastStatus|].
    unfold logMessageOnce.
    destruct (String.eqb (lastStatus s) "CONNECTED"); split; reflexivity.
  - replace (3000000 <? elapsed) with true by (symmetry; apply Z.ltb_lt; lia).
    split; [reflexivity|].
    unfold andthen. rewrite (updateLEDs_sized 255 0 0 s Hsz).
    destruct (logMessageOnce "DISCONNECTED" _) as [s2 l2] eqn:Hlog.
    pose proof (logMessageOnce_lastStatus "DISCONNECTED"
                  (set_strip (replicate (length (strip s)) (Color 255 0 0)) s)) as Hst.
    rewrite Hlog in Hst. cbn [fst snd].
    split; [exact Hst|].
    unfold logMessageOnce in Hlog.
    destruct (String.eqb _ _) in Hlog; injection Hlog as <- <-;
      split; reflexivity.
Qed.

Lemma watchdog_boundary_witness :
  watchdog_state (sample_env [] 0 3000000 500) initial_state = CONNECTED /\
  watchdog_state (sample_env [] 0 3000001 500) initial_state = DISCONNECTED /\
  rendered (snd (watchdog (sample_env [] 0 3000001 500) initial_state))
  = [replicate 16 16711680].
Proof.
  assert (Hsz : strip_sized initial_state) by (split; [reflexivity|discriminate]).
  split; [|split].
  - exact (proj1 (proj1 (watchdog_boundary (sample_env [] 0 3000000 500)
                           initial_state Hsz) eq_refl)).
  - refine (proj1 (proj2 (watchdog_boundary (sample_env [] 0 3000001 500)
                            initial_state Hsz) _)).
    discriminate.
  - refine (proj1 (proj2 (proj2 (proj2 (watchdog_boundary
              (sample_env [] 0 3000001 500) initial_state Hsz) _)))).
    discriminate.
Defined.

(** ** What each procedure prints and sends *)

Lemma heartbeats_app (l1 l2 : list Event) :
  heartbeats (l1 ++ l2) = heartbeats l1 ++ heartbeats l2.
Proof. apply omap_app. Qed.

Lemma connectivity_log_app (l1 l2 : list Event) :
  connectivity_log (l1 ++ l2) = connectivity_log l1 ++ connectivity_log l2.
Proof. apply omap_app. Qed.

Lemma logMessageOnce_events (m : string) (s : State) :
  snd (logMessageOnce m s)
  = if String.eqb (lastStatus s) m then [] else [SerialLine m].
Proof. unfold logMessageOnce. destruct (String.eqb _ _); reflexivity. Qed.

Lemma checkWiFiConnection_up (e : Env) (s : State) :
  wifi_check e = true -> checkWiFiConnection e s = (s, []).
Proof. unfold checkWiFiConnection. now intros ->. Qed.

Lemma checkWiFiConnection_heartbeats (e : Env) (s : State) :
  heartbeats (snd (checkWiFiConnection e s)) = [].
Proof.
  unfold checkWiFiConnection. destruct (wifi_check e); [reflexivity|].
  unfold andthen, logMessageOnce, emit.
  destruct (String.eqb _ _); reflexivity.
Qed.

Lemma handleReceivedMessage_quiet (e : Env) (data : list ascii) (s : State) :
  heartbeats (snd (handleReceivedMessage e data s)) = [] /\
  connectivity_log (snd (handleReceivedMessage e data s)) = [] /\
  lastStatus (fst (handleReceivedMessage e data s)) = lastStatus s.
Proof.
  rewrite handleReceivedMessage_eq.
  destruct (25 <? strlen data); repeat split.
Qed.

Lemma receive_quiet (e : Env) (s s' : State) (l : list Event) :
  receive e s = Some (s', l) ->
  heartbeats l = [] /\ connectivity_log l = [] /\ lastStatus s' = lastStatus s.
Proof.
  unfold receive.
  destruct (Z.of_nat (length (packet e)) =? 0).
  { intros [= <- <-]. repeat split. }
  destruct (udp_read _ _ _) as [len buf].
  destruct (0 <? len).
  2: { intros [= <- <-]. repeat split. }
  destruct (store_char buf len NUL) as [buf'|]; [|discriminate].
  intros [= H]. pose proof (handleReceivedMessage_quiet e (c_str buf') s) as Hq.
  rewrite H in Hq. exact Hq.
Qed.

Lemma watchdog_heartbeats (e : Env) (s : State) :
  heartbeats (snd (watchdog e s)) = [].
Proof.
  unfold watchdog, andthen, updateLEDs, logMessageOnce.
  destruct (3000000 <? _); destruct (String.eqb _ _); reflexivity.
Qed.

Lemma watchdog_log (e : Env) (s : State) :
  connectivity_log (snd (watchdog e s))
  = changes (lastStatus s) [state_name (watchdog_state e s)] /\
  lastStatus (fst (watchdog e s)) = state_name (watchdog_state e s).
Proof.
  unfold watchdog, watchdog_state, andthen, updateLEDs.
  destruct (3000000 <? _); cbn [state_name changes].
  - rewrite (surjective_pairing (logMessageOnce _ _)).
    cbn [fst snd app connectivity_log omap list_omap].
    rewrite logMessageOnce_events, logMessageOnce_lastStatus.
    cbn [lastStatus set_strip].
    destruct (String.eqb (lastStatus s) "DISCONNECTED"); split; reflexivity.
  - rewrite logMessageOnce_events, logMessageOnce_lastStatus.
    destruct (String.eqb (lastStatus s) "CONNECTED"); split; reflexivity.
Qed.

Lemma heartbeat_events (e : Env) (s : State) :
  heartbeats (snd (heartbeat e s))
  = if heartbeat_due e && wifi_send e
    then [snprintf_s 128 status_format (deviceName s)] else [].
Proof.
  unfold heartbeat, sendTallyStatus, andthen, emit, logMessageOnce.
  destruct (heartbeat_due e); [|reflexivity].
  destruct (wifi_send e); cbn [andb fst snd];
    destruct (String.eqb _ _); reflexivity.
Qed.

(** The datagrams one call of [loop] sends: none, or exactly one, and
    then every gate was open. *)
Lemma loop_heartbeats (e : Env) (s : State) :
  heartbeats (snd (loop e s)) = [] \/
  (wifi_loop e = true /\ heartbeat_due e = true /\ wifi_send e = true /\
   exists p, heartbeats (snd (loop e s)) = [p]).
Proof.
  unfold loop, loop_network.
  destruct (checkWiFiConnection e s) as [s1 l1] eqn:Hc.
  pose proof (checkWiFiConnection_heartbeats e s) as Hl1.
  rewrite Hc in Hl1. cbn [snd] in Hl1.
  destruct (wifi_loop e).
  2: { left. destruct (button_low e); cbn [snd];
         rewrite ?heartbeats_app, Hl1; reflexivity. }
  destruct (receive e s1) as [[s2 l2]|] eqn:Hr; [|left; exact Hl1].
  destruct (receive_quiet _ _ _ _ Hr) as (Hl2 & _ & _).
  unfold andthen.
  destruct (watchdog e s2) as [s3 l3] eqn:Hw.
  pose proof (watchdog_heartbeats e s2) as Hl3. rewrite Hw in Hl3.
  destruct (heartbeat e s3) as [s4 l4] eqn:Hh.
  pose proof (heartbeat_events e s3) as Hl4. rewrite Hh in Hl4.
  cbn [snd] in Hl3, Hl4.
  assert (Hall : forall tl, heartbeats tl = [] ->
            heartbeats ((l1 ++ l2 ++ l3 ++ l4) ++ tl) = heartbeats l4).
  { intros tl Htl. rewrite !heartbeats_app, Hl1, Hl2, Hl3, Htl.
    now rewrite app_nil_r. }
  assert (Hout : heartbeats (snd (if button_low e
             then (Restarted,
                   (l1 ++ l2 ++ l3 ++ l4) ++
                   [SerialLine "Reset button pressed, entering config mode...";
                    Delay 1000; ResetSettings])
             else (Running s4, l1 ++ l2 ++ l3 ++ l4))) = heartbeats l4).
  { destruct (button_low e); cbn [snd].
    - now apply Hall.
    - rewrite <- (app_nil_r (l1 ++ l2 ++ l3 ++ l4)). now apply Hall. }
  rewrite Hout, Hl4.
  destruct (heartbeat_due e); [|left; reflexivity].
  destruct (wifi_send e); [|left; reflexivity].
  right. repeat split. eexists. reflexivity.
Qed.

(** ** The heartbeat *)

(** C2 (amended): in an iteration in which the WiFi link is reported
    down, at the test in [loop] or at the test in [sendTallyStatus],
    no heartbeat is sent to the hub. *)
Theorem no_heartbeat_without_link (e : Env) (s : State) :
  wifi_loop e = false \/ wifi_send e = false ->
  heartbeats (snd (loop e s)) = [].
Proof.
  intros Hdown.
  destruct (loop_heartbeats e s) as [Hnone|(Hloop & _ & Hsend & _)];
    [assumption|].
  destruct Hdown as [H|H]; congruence.
Qed.

Lemma no_heartbeat_without_link_witness :
  heartbeats (snd (loop (mkEnv false false [] (fun _ => "?"%char)
                           (mkLocals 0 0 0 0 0 0 0 0) 0 0 1000 false false)
                        initial_state)) = [].
Proof.
  apply (no_heartbeat_without_link
           (mkEnv false false [] (fun _ => "?"%char)
                  (mkLocals 0 0 0 0 0 0 0 0) 0 0 1000 false false)
           initial_state).
  left. reflexivity.
Defined.

(** C2 as stated fails: 3,000,001 us after the last packet the
    watchdog state of the iteration is DISCONNECTED, and with
    [millis() = 1000] the heartbeat is sent all the same. *)
Lemma heartbeat_sent_while_disconnected :
  let e := sample_env [] 0 3000001 1000 in
  diffMicroSeconds (to_uint32 (micros_diff e))
                   (timeLastPackageReceived initial_state) = 3000001 /\
  iteration_state e initial_state = Some DISCONNECTED /\
  heartbeats (snd (loop e initial_state))
  = [snprintf_s 128 status_format (str "device-name")].
Proof. vm_compute. repeat split. Qed.

(** One call of [loop] sends at most one heartbeat, and sends it only
    when [millis() % 1000 < 100], that is within the first 100 ms of a
    one-second window. *)
Theorem heartbeat_only_in_first_100ms (e : Env) (s : State) :
  (length (heartbeats (snd (loop e s))) <= 1)%nat /\
  (heartbeats (snd (loop e s)) <> [] ->
   to_uint32 (millis_now e) mod 1000 < 100).
Proof.
  destruct (loop_heartbeats e s) as [Hnone|(_ & Hdue & _ & p & Hp)].
  - rewrite Hnone. split; [simpl; lia|]. intros H. now destruct H.
  - rewrite Hp. split; [simpl; lia|]. intros _.
    unfold heartbeat_due in Hdue. now apply Z.ltb_lt in Hdue.
Qed.

Lemma heartbeat_only_in_first_100ms_witness :
  to_uint32 (millis_now (sample_env [] 0 1000 2050)) mod 1000 < 100.
Proof.
  apply (proj2 (heartbeat_only_in_first_100ms (sample_env [] 0 1000 2050)
                  initial_state)).
  vm_compute. discriminate.
Defined.

(** C8 fails on the code: line 140 is meant to send the status every
    second, but nothing records that it was sent; two successive
    calls of [loop] that read [millis()] as 1000 and 1001, in the same
    one-second window and with the watchdog CONNECTED, send two
    heartbeats. *)
Lemma two_heartbeats_in_one_window :
  let envs := [sample_env [] 0 1000 1000; sample_env [] 0 2000 1001] in
  watchdog_states envs initial_state = [CONNECTED; CONNECTED] /\
  1000 / 1000 = 1001 / 1000 /\
  length (heartbeats (run envs initial_state)) = 2%nat.
Proof. vm_compute. repeat split. Qed.

(** ** Logging of the connectivity state *)

Lemma changes_cons (prev x : string) (l : list string) :
  changes prev (x :: l) = changes prev [x] ++ changes x l.
Proof. simpl. destruct (String.eqb prev x); reflexivity. Qed.

(** A quiet iteration prints the name of its watchdog state when it
    differs from [lastStatus], and nothing else that matters. *)
Lemma quiet_iteration (e : Env) (s : State) :
  quiet e = true ->
  match iteration_state e s with
  | Some c =>
      connectivity_log (snd (loop e s)) = changes (lastStatus s) [state_name c] /\
      forall s', fst (loop e s) = Running s' -> lastStatus s' = state_name c
  | None =>
      connectivity_log (snd (loop e s)) = [] /\
      forall s', fst (loop e s) = Running s' -> lastStatus s' = lastStatus s
  end.
Proof.
  unfold quiet. intros Hq. apply andb_true_iff in Hq as [Hup Hq].
  unfold iteration_state, loop, loop_network.
  rewrite (checkWiFiConnection_up e s Hup). cbn [fst].
  destruct (wifi_loop e).
  2: { destruct (button_low e); cbn [fst snd]; split;
         try reflexivity; intros s'; [discriminate|now intros [= <-]]. }
  cbn [negb orb] in Hq. apply negb_true_iff in Hq.
  destruct (receive e s) as [[s2 l2]|] eqn:Hr.
  2: { cbn [fst snd]. split; [reflexivity|discriminate]. }
  destruct (receive_quiet _ _ _ _ Hr) as (_ & Hl2 & Hst2).
  unfold andthen, heartbeat. rewrite Hq.
  destruct (watchdog e s2) as [s3 l3] eqn:Hw.
  destruct (watchdog_log e s2) as [Hl3 Hst3]. rewrite Hw in Hl3, Hst3.
  cbn [fst snd] in Hl3, Hst3. rewrite Hst2 in Hl3.
  destruct (button_low e); cbn [fst snd app].
  - split; [|discriminate].
    rewrite !connectivity_log_app, Hl2, Hl3. cbn [app].
    rewrite app_nil_r. apply app_nil_r.
  - split; [|now intros s' [= <-]].
    rewrite !connectivity_log_app, Hl2, Hl3. cbn [app]. apply app_nil_r.
Qed.

(** Over any run of quiet iterations (link up at the first test, no
    heartbeat due, so that no other status message is printed in
    between) the connectivity messages printed are exactly the changes
    of the watchdog state, one message per change and none while the
    state stays the same; the first evaluation counts as a change
    unless [lastStatus] already names its state. *)
Theorem connectivity_logged_once_per_change (envs : list Env) (s : State) :
  forallb quiet envs = true ->
  connectivity_log (run envs s)
  = changes (lastStatus s) (map state_name (watchdog_states envs s)).
Proof.
  revert s. induction envs as [|e envs IH]; intros s Hq; [reflexivity|].
  cbn [forallb] in Hq. apply andb_true_iff in Hq as [Hqe Hq].
  pose proof (quiet_iteration e s Hqe) as Hit.
  cbn [run watchdog_states].
  destruct (loop e s) as [out l] eqn:Hloop. cbn [fst snd] in Hit.
  destruct (iteration_state e s) as [c|]; destruct Hit as [Hlog Hst];
    destruct out as [s'| |];
    rewrite ?connectivity_log_app, ?map_app, ?Hlog; cbn [map app];
    try reflexivity.
  - rewrite (IH s' Hq), (Hst s' eq_refl). symmetry. apply changes_cons.
  - rewrite (IH s' Hq). now rewrite (Hst s' eq_refl).
Qed.

Lemma connectivity_logged_once_per_change_witness :
  connectivity_log
    (run [sample_env [] 0 1000 500; sample_env [] 0 2000 501;
          sample_env [] 0 3000001 502; sample_env [] 0 3000002 503]
         initial_state)
  = ["CONNECTED"; "DISCONNECTED"]%string.
Proof.
  exact (connectivity_logged_once_per_change
           [sample_env [] 0 1000 500; sample_env [] 0 2000 501;
            sample_env [] 0 3000001 502; sample_env [] 0 3000002 503]
           initial_state eq_refl).
Defined.

(** C7 fails on the code: [logMessageOnce] is meant to print a status
    once, but it shares [lastStatus] with the heartbeat's message; the
    watchdog state is CONNECTED in both iterations, yet "CONNECTED" is
    printed in each, because the heartbeat of the first overwrote
    [lastStatus]. *)
Lemma connected_logged_again_after_heartbeat :
  let envs := [sample_env [] 0 1000 1000; sample_env [] 0 2000 1500] in
  watchdog_states envs initial_state = [CONNECTED; CONNECTED] /\
  changes (lastStatus initial_state)
          (map state_name (watchdog_states envs initial_state))
  = ["CONNECTED"%string] /\
  connectivity_log (run envs initial_state)
  = ["CONNECTED"; "CONNECTED"]%string.
Proof. vm_compute. repeat split. Qed.

(** ** The elapsed time *)

Lemma diffMicroSeconds_forward (now time : Z) :
  0 <= time <= now -> now < 4294967296 ->
  diffMicroSeconds now time = now - time.
Proof.
  intros H1 H2. unfold diffMicroSeconds, to_uint32.
  replace (now <? time) with false by (symmetry; apply Z.ltb_ge; lia).
  apply Z.mod_small. lia.
Qed.

(** After a wrap of the counter the result is one less than the
    interval modulo 2^32. *)
Lemma diffMicroSeconds_wrapped (now time : Z) :
  0 <= now < time -> time < 4294967296 ->
  diffMicroSeconds now time = to_uint32 (now - time) - 1.
Proof.
  intros H1 H2. unfold diffMicroSeconds, to_uint32.
  replace (now <? time) with true by (symmetry; apply Z.ltb_lt; lia).
  rewrite Z.mod_small by lia.
  replace (now - time) with (now - time + 4294967296 + (-1) * 4294967296) by lia.
  rewrite Z.mod_add by lia. rewrite Z.mod_small by lia. lia.
Qed.

(** C4 fails on the code: with the last packet at the maximum clock
    value 4294967295 and the clock read as 0 just after the wrap, the
    true interval is 1 us and [diffMicroSeconds] returns 0. *)
Theorem elapsed_one_short_after_wrap :
  to_uint32 (0 - 4294967295) = 1 /\
  diffMicroSeconds 0 4294967295 = 0.
Proof. split; reflexivity. Qed.

(** ** Malformed payloads *)

(** C1 fails on the code: for the payload ["hello"] the scan assigns
    nothing, no error is raised, and [loop] paints the strip with
    whatever the uninitialised locals [opR], [opG], [opB] hold. *)
Theorem malformed_payload_is_rendered (g : Locals) :
  let e := mkEnv true true (str "hello") (fun _ => "?"%char) g
                 0 0 500 true false in
  sscanf_command (str "hello") g = (0, g) /\
  rendered (snd (loop e initial_state))
  = [replicate 16 (Color (opR g) (opG g) (opB g))].
Proof.
  destruct g as [r g b sr sg sb p d].
  split; lazy -[Color]; reflexivity.
Qed.

(** ** The receive buffer *)

Lemma c_str_terminated (pkt tail : list ascii) :
  c_str (pkt ++ NUL :: tail) = c_str pkt.
Proof.
  induction pkt as [|c pkt IH]; simpl; [reflexivity|].
  destruct (Ascii.eqb c NUL); [reflexivity|]. now rewrite IH.
Qed.

Lemma incomingPacket_length (e : Env) : length (incomingPacket e) = 255%nat.
Proof. unfold incomingPacket. now rewrite length_map, length_seq. Qed.

(** A datagram of 1 to 254 bytes is terminated inside the buffer and
    handled as the C string it starts with. *)
Lemma receive_short (e : Env) (s : State) :
  (0 < length (packet e) < 255)%nat ->
  receive e s = Some (handleReceivedMessage e (c_str (packet e)) s).
Proof.
  intros Hlen. unfold receive, udp_read.
  replace (Z.of_nat (length (packet e)) =? 0) with false
    by (symmetry; apply Z.eqb_neq; lia).
  rewrite take_ge by lia.
  replace (0 <? Z.of_nat (length (packet e))) with true
    by (symmetry; apply Z.ltb_lt; lia).
  unfold store_char.
  rewrite length_app, length_drop, incomingPacket_length.
  replace ((0 <=? Z.of_nat (length (packet e))) &&
           (Z.of_nat (length (packet e)) <?
            Z.of_nat (length (packet e) + (255 - length (packet e)))))
    with true by (symmetry; apply andb_true_iff; split;
                  [apply Z.leb_le|apply Z.ltb_lt]; lia).
  rewrite Nat2Z.id.
  destruct (drop (length (packet e)) (incomingPacket e)) as [|c tail] eqn:Hd.
  { apply (f_equal length) in Hd.
    rewrite length_drop, incomingPacket_length in Hd. simpl in Hd. lia. }
  replace (length (packet e)) with (length (packet e) + 0)%nat at 1 by lia.
  rewrite insert_app_r. cbn [insert list_insert].
  now rewrite c_str_terminated.
Qed.

(** C10 fails on the code: for a datagram of 255 bytes or more
    [udp.read] fills the buffer and returns 255, and the store
    [incomingPacket[255] = 0] is one past the last element. *)
Theorem terminator_store_out_of_bounds (e : Env) (s : State) :
  (255 <= length (packet e))%nat ->
  let '(len, buf) := udp_read (packet e) (incomingPacket e) 255 in
  len = 255 /\ length buf = 255%nat /\
  store_char buf len NUL = None /\
  receive e s = None.
Proof.
  intros Hlen.
  assert (Hread : udp_read (packet e) (incomingPacket e) 255
                  = (255, take 255 (packet e))).
  { unfold udp_read. rewrite length_take_le by lia.
    rewrite drop_ge by (rewrite incomingPacket_length; lia).
    now rewrite app_nil_r. }
  assert (Hstore : store_char (take 255 (packet e)) 255 NUL = None).
  { unfold store_char. now rewrite length_take_le by lia. }
  rewrite Hread. repeat split.
  - now rewrite length_take_le by lia.
  - exact Hstore.
  - unfold receive. rewrite Hread, Hstore.
    replace (Z.of_nat (length (packet e)) =? 0) with false
      by (symmetry; apply Z.eqb_neq; lia).
    reflexivity.
Qed.

Lemma terminator_store_out_of_bounds_witness :
  receive (sample_env (replicate 255 "a"%char) 0 0 500) initial_state = None.
Proof.
  refine (proj2 (proj2 (proj2 (terminator_store_out_of_bounds
            (sample_env (replicate 255 "a"%char) 0 0 500) initial_state _)))).
  vm_compute. apply le_n.
Defined.

(** * Further properties of the sketch *)

(** ** Elapsed time, in general *)

(** X1: when the clock has not wrapped since the last packet
    ([time <= now]), [diffMicroSeconds] is the exact interval. *)
Theorem elapsed_exact_without_wrap (now time : Z) :
  0 <= time <= now -> now < 4294967296 ->
  diffMicroSeconds now time = now - time.
Proof. intros H1 H2. now apply diffMicroSeconds_forward. Qed.

Lemma elapsed_exact_without_wrap_witness :
  diffMicroSeconds 3500000 500000 = 3000000.
Proof.
  apply (elapsed_exact_without_wrap 3500000 500000);
    [split; discriminate|reflexivity].
Defined.

(** X2: whenever the clock has wrapped ([now < time]) the result is
    one microsecond less than the interval modulo 2^32, and it is
    never negative. *)
Theorem elapsed_one_short_whenever_wrapped (now time : Z) :
  0 <= now < time -> time < 4294967296 ->
  diffMicroSeconds now time = to_uint32 (now - time) - 1 /\
  0 <= diffMicroSeconds now time < 4294967295.
Proof.
  intros H1 H2. rewrite (diffMicroSeconds_wrapped now time H1 H2).
  split; [reflexivity|]. unfold to_uint32.
  replace (now - time) with (now - time + 4294967296 + (-1) * 4294967296) by lia.
  rewrite Z.mod_add by lia. rewrite Z.mod_small by lia. lia.
Qed.

Lemma elapsed_one_short_whenever_wrapped_witness :
  diffMicroSeconds 2999999 4294967295 = 3000000 - 1.
Proof.
  refine (proj1 (elapsed_one_short_whenever_wrapped 2999999 4294967295 _ _)).
  - split; [discriminate|reflexivity].
  - reflexivity.
Defined.

(** ** Colours and the strip *)

Lemma land_shifted_low (a b k : Z) :
  0 <= k -> 0 <= b < 2 ^ k -> Z.land (a * 2 ^ k) b = 0.
Proof.
  intros Hk Hb. apply Z.bits_inj'. intros m Hm.
  rewrite Z.land_spec, Z.bits_0.
  destruct (Z.lt_ge_cases m k) as [Hlt|Hge].
  - rewrite Z.mul_pow2_bits_low by lia. reflexivity.
  - rewrite <- (Z.mod_small b (2 ^ k)) by lia.
    rewrite Z.mod_pow2_bits_high by lia. apply andb_false_r.
Qed.

Lemma lor_shifted_low (a b k : Z) :
  0 <= k -> 0 <= b < 2 ^ k -> Z.lor (a * 2 ^ k) b = a * 2 ^ k + b.
Proof.
  intros Hk Hb. rewrite <- Z.add_lor_land.
  rewrite land_shifted_low by assumption. lia.
Qed.

(** X3: [Color] keeps the low eight bits of each channel and packs
    them as [0xRRGGBB]; the result is below 2^24. *)
Theorem Color_packs_low_bytes (r g b : Z) :
  Color r g b = 65536 * (r mod 256) + 256 * (g mod 256) + b mod 256 /\
  0 <= Color r g b < 16777216.
Proof.
  assert (Hr := Z.mod_pos_bound r 256 ltac:(lia)).
  assert (Hg := Z.mod_pos_bound g 256 ltac:(lia)).
  assert (Hb := Z.mod_pos_bound b 256 ltac:(lia)).
  assert (Heq : Color r g b = 65536 * (r mod 256) + 256 * (g mod 256) + b mod 256).
  { unfold Color, to_uint8.
    rewrite !Z.shiftl_mul_pow2 by lia.
    rewrite (lor_shifted_low (g mod 256) (b mod 256) 8) by lia.
    rewrite (lor_shifted_low (r mod 256) _ 16) by lia.
    lia. }
  split; [exact Heq|]. rewrite Heq. lia.
Qed.

Lemma updateLEDs_loop_other (k : nat) :
  forall i c (px : list Z) (n : nat),
    0 <= i -> i + Z.of_nat k <= 65536 ->
    Z.of_nat n < i \/ i + Z.of_nat k <= Z.of_nat n ->
    updateLEDs_loop k i c px !! n = px !! n.
Proof.
  induction k as [|k IH]; intros i c px n Hi Hmax Hn; simpl; [reflexivity|].
  rewrite IH by lia.
  unfold setPixelColor, to_uint16. rewrite Z.mod_small by lia.
  apply list_lookup_insert_ne. lia.
Qed.

(** X4: [updateLEDs] never changes the length of the strip; it
    paints the pixels below [ledCount] and leaves the pixels from
    [ledCount] on as they were. *)
Theorem updateLEDs_paints_first_ledCount (r g b : Z) (s : State) (n : nat) :
  0 <= ledCount s <= 65536 ->
  length (strip (fst (updateLEDs r g b s))) = length (strip s) /\
  (Z.of_nat n < ledCount s -> (n < length (strip s))%nat ->
   strip (fst (updateLEDs r g b s)) !! n = Some (Color r g b)) /\
  (ledCount s <= Z.of_nat n ->
   strip (fst (updateLEDs r g b s)) !! n = strip s !! n).
Proof.
  intros Hc. unfold updateLEDs. cbn [fst strip set_strip].
  split; [apply updateLEDs_loop_length|]. split.
  - intros Hn Hlen. apply updateLEDs_loop_sets; lia.
  - intros Hn. apply updateLEDs_loop_other; lia.
Qed.

Lemma updateLEDs_paints_first_ledCount_witness :
  let s := mkState (str "t") (str "h") 7411 2 [5; 6; 7] 0 "" in
  strip (fst (updateLEDs 0 0 255 s)) !! 1%nat = Some (Color 0 0 255) /\
  strip (fst (updateLEDs 0 0 255 s)) !! 2%nat = Some 7.
Proof.
  intros s.
  assert (Hc : 0 <= ledCount s <= 65536) by (split; discriminate).
  split.
  - refine (proj1 (proj2 (updateLEDs_paints_first_ledCount 0 0 255 s 1 Hc)) _ _).
    + reflexivity.
    + simpl. lia.
  - refine (proj2 (proj2 (updateLEDs_paints_first_ledCount 0 0 255 s 2 Hc)) _).
    discriminate.
Defined.

(** ** Commands *)

(** X5: a command of at most 25 characters is rendered without any
    hold, whatever its duration field says. *)
Theorem short_command_never_holds (e : Env) (data : list ascii) (s : State) :
  strlen data <= 25 ->
  holds (snd (handleReceivedMessage e data s)) = [] /\
  length (rendered (snd (handleReceivedMessage e data s))) = 1%nat.
Proof.
  intros Hlen. rewrite handleReceivedMessage_eq.
  replace (25 <? strlen data) with false by (symmetry; apply Z.ltb_ge; lia).
  split; reflexivity.
Qed.

Lemma short_command_never_holds_witness :
  holds (snd (handleReceivedMessage (sample_env [] 0 0 0)
                (str "O255/0/0 S0/0/255 0x01 5") initial_state)) = [].
Proof.
  refine (proj1 (short_command_never_holds (sample_env [] 0 0 0)
                   (str "O255/0/0 S0/0/255 0x01 5") initial_state _)).
  discriminate.
Defined.

(** X6: in a command longer than 25 characters a negative duration
    [-2147483 <= d < 0] blocks the loop for [2^32 + d * 1000]
    milliseconds, since [delay] takes an unsigned argument. *)
Theorem negative_duration_holds_for_weeks (e : Env) (data : list ascii) (s : State) :
  25 < strlen data ->
  let d := duration (snd (sscanf_command data (locals e))) in
  -2147483 <= d < 0 ->
  holds (snd (handleReceivedMessage e data s)) = [4294967296 + d * 1000].
Proof.
  intros Hlen d Hd. rewrite handleReceivedMessage_eq. fold d.
  apply Z.ltb_lt in Hlen. rewrite Hlen.
  change ([to_uint32 (int_mul d 1000)] = [4294967296 + d * 1000]).
  f_equal. unfold int_mul, to_int32, to_uint32.
  rewrite (Z.mod_small (d * 1000 + 2147483648)) by lia.
  replace (d * 1000 + 2147483648 - 2147483648)
    with (4294967296 + d * 1000 + (-1) * 4294967296) by lia.
  rewrite Z.mod_add by lia. apply Z.mod_small. lia.
Qed.

Lemma negative_duration_holds_for_weeks_witness :
  holds (snd (handleReceivedMessage (sample_env [] 0 0 0)
                (str "O255/000/000 S000/000/255 0x01 -1") initial_state))
  = [4294966296].
Proof.
  refine (negative_duration_holds_for_weeks (sample_env [] 0 0 0)
            (str "O255/000/000 S000/000/255 0x01 -1") initial_state _ _).
  - reflexivity.
  - vm_compute. split; [discriminate|reflexivity].
Defined.

(** X7: the colour rendered is decided by the head [O<r>/<g>/<b>] of
    the payload alone: whatever follows the third numeral (nothing,
    the remaining fields, or anything else that does not start with a
    digit), the frame sent is the one painted with (r,g,b). *)
Theorem operator_prefix_decides_colour
    (e : Env) (s : State) (r g b rest : list ascii) :
  is_numeral 10 r = true -> is_numeral 10 g = true -> is_numeral 10 b = true ->
  stops 10 rest ->
  rendered (snd (handleReceivedMessage e
                   ("O"%char :: r ++ "/"%char :: g ++ "/"%char :: b ++ rest) s))
  = [updateLEDs_loop (Z.to_nat (ledCount s)) 0
       (Color (numeral 10 r) (numeral 10 g) (numeral 10 b)) (strip s)].
Proof.
  intros Hr Hg Hb Hrest. rewrite handleReceivedMessage_eq.
  unfold sscanf_command. rewrite command_format_directives.
  cbn [scan Ascii.eqb Bool.eqb].
  rewrite conv_d_numeral by (assumption || reflexivity).
  cbn [scan Ascii.eqb Bool.eqb].
  rewrite conv_d_numeral by (assumption || reflexivity).
  cbn [scan Ascii.eqb Bool.eqb].
  rewrite conv_d_numeral by assumption.
  cbn [snd lookup list_lookup default id opR opG opB].
  destruct (25 <? _); reflexivity.
Qed.

Lemma operator_prefix_decides_colour_witness :
  rendered (snd (handleReceivedMessage (sample_env [] 0 0 0)
                   (str "O0/255/0 and more") initial_state))
  = [replicate 16 65280].
Proof.
  exact (operator_prefix_decides_colour (sample_env [] 0 0 0) initial_state
           (str "0") (str "255") (str "0") (str " and more")
           eq_refl eq_refl eq_refl eq_refl).
Defined.

(** X8: a payload that does not begin with the letter O makes the
    scan assign nothing: all eight locals keep what they held; the
    result is 0, and EOF (-1) for the empty payload. *)
Theorem payload_without_O_assigns_nothing (data : list ascii) (g : Locals) :
  head data <> Some "O"%char ->
  sscanf_command data g = (match data with [] => EOF | _ :: _ => 0 end, g).
Proof.
  intros Hhd. unfold sscanf_command. rewrite command_format_directives.
  destruct data as [|c data].
  { destruct g; reflexivity. }
  cbn [scan input_fails_first].
  destruct (Ascii.eqb_spec "O"%char c) as [<-|Hne]; [now destruct Hhd|].
  destruct g; reflexivity.
Qed.

Lemma payload_without_O_assigns_nothing_witness :
  sscanf_command (str "S0/0/255 O255/0/0") (mkLocals 1 2 3 4 5 6 7 8)
  = (0, mkLocals 1 2 3 4 5 6 7 8).
Proof.
  apply (payload_without_O_assigns_nothing (str "S0/0/255 O255/0/0")
           (mkLocals 1 2 3 4 5 6 7 8)).
  discriminate.
Defined.

(** ** The receive step *)

Lemma receive_none (e : Env) (s : State) :
  packet e = [] -> receive e s = Some (s, []).
Proof. intros H. unfold receive. now rewrite H. Qed.

Lemma receive_oversize (e : Env) (s : State) :
  (255 <= length (packet e))%nat -> receive e s = None.
Proof.
  intros Hlen. unfold receive, udp_read, store_char.
  replace (Z.of_nat (length (packet e)) =? 0) with false
    by (symmetry; apply Z.eqb_neq; lia).
  rewrite length_take_le by lia.
  rewrite length_app, length_take_le, length_drop, incomingPacket_length by lia.
  reflexivity.
Qed.

Lemma c_str_length (buf : list ascii) : (length (c_str buf) <= length buf)%nat.
Proof.
  induction buf as [|c buf IH]; simpl; [lia|].
  destruct (Ascii.eqb c NUL); simpl; lia.
Qed.

Lemma c_str_no_NUL (buf : list ascii) : forallb (fun c => negb (Ascii.eqb c NUL)) (c_str buf) = true.
Proof.
  induction buf as [|c buf IH]; simpl; [reflexivity|].
  destruct (Ascii.eqb c NUL) eqn:Hc; simpl; [reflexivity|].
  now rewrite Hc.
Qed.

(** X9: a datagram of 1 to 254 bytes, well-formed or not, is handed
    to [handleReceivedMessage] as the text before its first NUL byte
    (at most 254 characters), and it sets [timeLastPackageReceived]
    to the clock reading. *)
Theorem datagram_handled_up_to_first_NUL (e : Env) (s : State) :
  (0 < length (packet e) < 255)%nat ->
  receive e s = Some (handleReceivedMessage e (c_str (packet e)) s) /\
  strlen (c_str (packet e)) <= 254 /\
  forallb (fun c => negb (Ascii.eqb c NUL)) (c_str (packet e)) = true /\
  timeLastPackageReceived (fst (handleReceivedMessage e (c_str (packet e)) s))
  = to_uint32 (micros_recv e).
Proof.
  intros Hlen. split; [now apply receive_short|].
  split; [|split; [apply c_str_no_NUL|]].
  - pose proof (c_str_length (packet e)). unfold strlen. lia.
  - rewrite handleReceivedMessage_eq. reflexivity.
Qed.

Lemma datagram_handled_up_to_first_NUL_witness :
  let e := sample_env (str "O1/2/3" ++ NUL :: str "ignored") 77 0 500 in
  receive e initial_state
  = Some (handleReceivedMessage e (str "O1/2/3") initial_state).
Proof.
  intros e.
  refine (proj1 (datagram_handled_up_to_first_NUL e initial_state _)).
  vm_compute. split; repeat constructor.
Defined.

(** ** What one call of [loop] keeps *)

Lemma same_config_refl (s : State) : same_config s s.
Proof. repeat split. Qed.

Lemma same_config_trans (s1 s2 s3 : State) :
  same_config s1 s2 -> same_config s2 s3 -> same_config s1 s3.
Proof.
  unfold same_config. intros (A1 & A2 & A3 & A4 & A5) (B1 & B2 & B3 & B4 & B5).
  repeat split; congruence.
Qed.

Lemma logMessageOnce_config (m : string) (s : State) :
  same_config s (fst (logMessageOnce m s)).
Proof.
  unfold logMessageOnce. destruct (String.eqb _ _); repeat split.
Qed.

Lemma updateLEDs_config (r g b : Z) (s : State) :
  same_config s (fst (updateLEDs r g b s)).
Proof.
  unfold updateLEDs, same_config. cbn. repeat split.
  apply updateLEDs_loop_length.
Qed.

Lemma handleReceivedMessage_config (e : Env) (data : list ascii) (s : State) :
  same_config s (fst (handleReceivedMessage e data s)).
Proof.
  rewrite handleReceivedMessage_eq. unfold same_config. cbn.
  repeat split. apply updateLEDs_loop_length.
Qed.

Lemma receive_config (e : Env) (s s' : State) (l : list Event) :
  receive e s = Some (s', l) -> same_config s s'.
Proof.
  unfold receive.
  destruct (Z.of_nat (length (packet e)) =? 0).
  { intros [= <- <-]. apply same_config_refl. }
  destruct (udp_read _ _ _) as [len buf].
  destruct (0 <? len).
  2: { intros [= <- <-]. apply same_config_refl. }
  destruct (store_char buf len NUL) as [buf'|]; [|discriminate].
  intros [= H]. pose proof (handleReceivedMessage_config e (c_str buf') s) as Hc.
  now rewrite H in Hc.
Qed.

Lemma watchdog_config (e : Env) (s : State) : same_config s (fst (watchdog e s)).
Proof.
  unfold watchdog, andthen. destruct (3000000 <? _).
  - destruct (updateLEDs 255 0 0 s) as [s1 l1] eqn:Hu.
    pose proof (updateLEDs_config 255 0 0 s) as H1. rewrite Hu in H1.
    destruct (logMessageOnce _ s1) as [s2 l2] eqn:Hl.
    pose proof (logMessageOnce_config "DISCONNECTED" s1) as H2. rewrite Hl in H2.
    exact (same_config_trans _ _ _ H1 H2).
  - apply logMessageOnce_config.
Qed.

Lemma heartbeat_config (e : Env) (s : State) : same_config s (fst (heartbeat e s)).
Proof.
  unfold heartbeat, sendTallyStatus, andthen, emit.
  destruct (heartbeat_due e); [|apply same_config_refl].
  destruct (wifi_send e); [|apply logMessageOnce_config].
  destruct (logMessageOnce _ s) as [s2 l2] eqn:Hl.
  pose proof (logMessageOnce_config "Sent status to hub" s) as H. now rewrite Hl in H.
Qed.

Lemma checkWiFiConnection_config (e : Env) (s : State) :
  same_config s (fst (checkWiFiConnection e s)).
Proof.
  unfold checkWiFiConnection, andthen, emit.
  destruct (wifi_check e); [apply same_config_refl|].
  destruct (logMessageOnce _ s) as [s2 l2] eqn:Hl.
  pose proof (logMessageOnce_config "RECONNECTING TO WIFI" s) as H.
  now rewrite Hl in H.
Qed.

(** X10: a call of [loop] that returns leaves the configuration
    ([deviceName], [hubIp], [hubPort], [ledCount]) and the length of
    the strip as they were, so a strip sized to [ledCount] stays so. *)
Theorem loop_keeps_configuration (e : Env) (s s' : State) :
  fst (loop e s) = Running s' ->
  same_config s s' /\ (strip_sized s -> strip_sized s').
Proof.
  intros Hrun.
  assert (Hsame : same_config s s').
  { revert Hrun. unfold loop, loop_network.
    destruct (checkWiFiConnection e s) as [s1 l1] eqn:Hc.
    pose proof (checkWiFiConnection_config e s) as H1. rewrite Hc in H1.
    cbn [fst] in H1.
    destruct (wifi_loop e).
    - destruct (receive e s1) as [[s2 l2]|] eqn:Hr; [|discriminate].
      pose proof (receive_config _ _ _ _ Hr) as H2.
      unfold andthen.
      destruct (watchdog e s2) as [s3 l3] eqn:Hw.
      pose proof (watchdog_config e s2) as H3. rewrite Hw in H3.
      destruct (heartbeat e s3) as [s4 l4] eqn:Hh.
      pose proof (heartbeat_config e s3) as H4. rewrite Hh in H4.
      cbn [fst] in H3, H4.
      destruct (button_low e); [discriminate|]. intros [= <-].
      eauto using same_config_trans.
    - destruct (button_low e); [discriminate|]. now intros [= <-]. }
  split; [exact Hsame|].
  destruct Hsame as (_ & _ & _ & Hcount & Hlen).
  unfold strip_sized. rewrite Hcount, Hlen. tauto.
Qed.

Lemma loop_keeps_configuration_witness :
  strip_sized initial_state /\
  exists s', fst (loop (sample_env (str "O1/2/3") 0 0 0) initial_state) = Running s' /\
             strip_sized s'.
Proof.
  assert (Hs : strip_sized initial_state) by (split; [reflexivity|discriminate]).
  split; [exact Hs|].
  eexists. split; [vm_compute; reflexivity|].
  refine (proj2 (loop_keeps_configuration
                   (sample_env (str "O1/2/3") 0 0 0) initial_state _ _) Hs).
  vm_compute. reflexivity.
Defined.

(** X11: a call of [loop] ends in a memory fault exactly when the
    link is up at the test in [loop] and the pending datagram has 255
    bytes or more. *)
Theorem loop_faults_iff_oversize (e : Env) (s : State) :
  fst (loop e s) = MemoryFault <->
  wifi_loop e = true /\ (255 <= length (packet e))%nat.
Proof.
  unfold loop, loop_network.
  destruct (checkWiFiConnection e s) as [s1 l1].
  destruct (wifi_loop e).
  2: { destruct (button_low e); split; [discriminate|intros [? _]; discriminate
                                        |discriminate|intros [? _]; discriminate]. }
  destruct (Nat.lt_ge_cases (length (packet e)) 255) as [Hlt|Hge].
  - assert (Hsome : exists r, receive e s1 = Some r).
    { destruct (packet e) as [|c p] eqn:Hp.
      - eexists. apply receive_none. exact Hp.
      - eexists. apply receive_short. rewrite Hp. simpl in *. lia. }
    destruct Hsome as [[s2 l2] ->].
    destruct ((watchdog e;; heartbeat e)%proc s2) as [s3 l3].
    destruct (button_low e); split; try discriminate; intros [_ H]; lia.
  - rewrite (receive_oversize e s1 Hge). cbn [fst]. tauto.
Qed.

(** X12: when the link is down at the test in [loop], the call sends
    no frame to the strip and no datagram, and leaves the strip and
    [timeLastPackageReceived] untouched. *)
Theorem link_down_leaves_strip_alone (e : Env) (s : State) :
  wifi_loop e = false ->
  rendered (snd (loop e s)) = [] /\
  datagrams (snd (loop e s)) = [] /\
  forall s', fst (loop e s) = Running s' ->
             strip s' = strip s /\
             timeLastPackageReceived s' = timeLastPackageReceived s.
Proof.
  intros Hdown. unfold loop, loop_network, checkWiFiConnection.
  rewrite Hdown.
  destruct (wifi_check e); unfold skip, andthen, emit, logMessageOnce;
    [|destruct (String.eqb _ _)]; destruct (button_low e); cbn;
    (split; [reflexivity|split; [reflexivity|]]);
    intros s' Hs; try discriminate Hs; injection Hs as <-; split; reflexivity.
Qed.

Lemma link_down_leaves_strip_alone_witness :
  rendered (snd (loop (mkEnv false false (str "O1/2/3") (fun _ => "?"%char)
                         (mkLocals 0 0 0 0 0 0 0 0) 0 0 1000 false false)
                      initial_state)) = [].
Proof.
  refine (proj1 (link_down_leaves_strip_alone
                   (mkEnv false false (str "O1/2/3") (fun _ => "?"%char)
                          (mkLocals 0 0 0 0 0 0 0 0) 0 0 1000 false false)
                   initial_state _)).
  reflexivity.
Defined.

(** ** Reconnecting *)

Lemma link_down_iteration (e : Env) (s : State) :
  link_down e = true ->
  loop e s
  = (Running (fst (logMessageOnce "RECONNECTING TO WIFI" s)),
     snd (logMessageOnce "RECONNECTING TO WIFI" s) ++ [WifiReconnect; Delay 1000]).
Proof.
  unfold link_down. intros H.
  apply andb_true_iff in H as [H Hb]. apply andb_true_iff in H as [Hc Hl].
  apply negb_true_iff in Hb, Hc, Hl.
  unfold loop, loop_network, checkWiFiConnection. rewrite Hc, Hl, Hb.
  unfold andthen, emit.
  destruct (logMessageOnce _ s) as [s1 l1]. reflexivity.
Qed.

(** X13: while the link stays down, every call of [loop] asks for a
    reconnect and blocks for 1000 ms, and "RECONNECTING TO WIFI" is
    printed once, by the first call, unless it was the last status
    already. *)
Theorem reconnecting_logged_once (envs : list Env) (s : State) :
  forallb link_down envs = true ->
  holds (run envs s) = replicate (length envs) 1000 /\
  serial_lines (run envs s)
  = if String.eqb (lastStatus s) "RECONNECTING TO WIFI" || Nat.eqb (length envs) 0
    then [] else ["RECONNECTING TO WIFI"%string].
Proof.
  revert s. induction envs as [|e envs IH]; intros s Hall.
  { split; [reflexivity|]. now rewrite orb_true_r. }
  cbn [forallb] in Hall. apply andb_true_iff in Hall as [He Hall].
  cbn [run]. rewrite (link_down_iteration e s He).
  destruct (IH (fst (logMessageOnce "RECONNECTING TO WIFI" s)) Hall) as [IHh IHs].
  rewrite logMessageOnce_lastStatus, String.eqb_refl in IHs. cbn [orb] in IHs.
  unfold holds, serial_lines in *. rewrite !omap_app, IHh, IHs.
  rewrite logMessageOnce_events.
  cbn [length Nat.eqb orb replicate]. rewrite orb_false_r.
  destruct (String.eqb (lastStatus s) "RECONNECTING TO WIFI"); split; reflexivity.
Qed.

Lemma reconnecting_logged_once_witness :
  let e := mkEnv false false [] (fun _ => "?"%char)
                 (mkLocals 0 0 0 0 0 0 0 0) 0 0 0 false false in
  serial_lines (run [e; e; e] initial_state) = ["RECONNECTING TO WIFI"%string] /\
  holds (run [e; e; e] initial_state) = [1000; 1000; 1000].
Proof.
  intros e.
  destruct (reconnecting_logged_once [e; e; e] initial_state eq_refl) as [Hh Hs].
  split; [exact Hs|exact Hh].
Defined.

(** X14: a second [logMessageOnce] with the same message prints
    nothing and changes nothing. *)
Theorem logMessageOnce_twice (m : string) (s : State) :
  logMessageOnce m (fst (logMessageOnce m s)) = (fst (logMessageOnce m s), []).
Proof.
  unfold logMessageOnce at 1.
  rewrite logMessageOnce_lastStatus. now rewrite String.eqb_refl.
Qed.

(** ** The heartbeat datagram *)

Lemma heartbeats_datagrams (l : list Event) :
  heartbeats l = map snd (datagrams l).
Proof.
  induction l as [|ev l IH]; [reflexivity|].
  destruct ev; cbn; try exact IH. f_equal. exact IH.
Qed.

Lemma no_heartbeats_no_datagrams (l : list Event) :
  heartbeats l = [] -> datagrams l = [].
Proof.
  rewrite heartbeats_datagrams. destruct (datagrams l); [reflexivity|discriminate].
Qed.

Lemma status_text (name : list ascii) :
  expand_s status_format name = str "tally-ho " ++ quote :: name ++ [quote].
Proof. reflexivity. Qed.

(** X15: with the link up at both tests, a heartbeat due and a
    datagram of less than 255 bytes (or none) pending, the call of
    [loop] sends exactly one datagram, to [hubIp] and the port made
    of the low 16 bits of [hubPort], whose text is
    [tally-ho "<deviceName>"] for a device name of at most 116
    characters. *)
Theorem heartbeat_datagram (e : Env) (s : State) :
  wifi_loop e = true -> heartbeat_due e = true -> wifi_send e = true ->
  (length (packet e) < 255)%nat -> (length (deviceName s) <= 116)%nat ->
  datagrams (snd (loop e s))
  = [(hubIp s, to_uint16 (hubPort s), str "tally-ho " ++ quote :: deviceName s ++ [quote])].
Proof.
  intros Hloop Hdue Hsend Hpkt Hname.
  unfold loop, loop_network.
  destruct (checkWiFiConnection e s) as [s1 l1] eqn:Hc.
  pose proof (checkWiFiConnection_heartbeats e s) as Hl1.
  pose proof (checkWiFiConnection_config e s) as Hc1.
  rewrite Hc in Hl1, Hc1. cbn [fst snd] in Hl1, Hc1.
  apply no_heartbeats_no_datagrams in Hl1.
  rewrite Hloop.
  assert (Hsome : exists r, receive e s1 = Some r).
  { destruct (packet e) as [|c p] eqn:Hp.
    - eexists. apply receive_none. exact Hp.
    - eexists. apply receive_short. rewrite Hp. simpl in *. lia. }
  destruct Hsome as [[s2 l2] Hr]. rewrite Hr.
  destruct (receive_quiet _ _ _ _ Hr) as (Hl2 & _ & _).
  apply no_heartbeats_no_datagrams in Hl2.
  pose proof (receive_config _ _ _ _ Hr) as Hc2.
  unfold andthen.
  destruct (watchdog e s2) as [s3 l3] eqn:Hw.
  pose proof (watchdog_heartbeats e s2) as Hl3.
  pose proof (watchdog_config e s2) as Hc3.
  rewrite Hw in Hl3, Hc3. cbn [fst snd] in Hl3, Hc3.
  apply no_heartbeats_no_datagrams in Hl3.
  pose proof (same_config_trans _ _ _ (same_config_trans _ _ _ Hc1 Hc2) Hc3)
    as (Hn & Hip & Hport & _).
  unfold heartbeat, sendTallyStatus, andthen, emit. rewrite Hdue, Hsend.
  destruct (logMessageOnce "Sent status to hub" s3) as [s4 l4] eqn:Hlog.
  assert (Hl4 : datagrams l4 = []).
  { pose proof (logMessageOnce_events "Sent status to hub" s3) as Hev.
    rewrite Hlog in Hev. cbn [snd] in Hev. rewrite Hev.
    destruct (String.eqb _ _); reflexivity. }
  assert (Htext : snprintf_s 128 status_format (deviceName s3)
                  = str "tally-ho " ++ quote :: deviceName s ++ [quote]).
  { unfold snprintf_s. rewrite status_text, Hn.
    apply take_ge. cbn [length str list_ascii_of_string app].
    rewrite length_app. simpl. lia. }
  assert (Hall : forall tl, datagrams tl = [] ->
     datagrams ((l1 ++ l2 ++ l3 ++
                 [UdpSend (hubIp s3) (to_uint16 (hubPort s3))
                    (snprintf_s 128 status_format (deviceName s3))] ++ l4) ++ tl)
     = [(hubIp s, to_uint16 (hubPort s), str "tally-ho " ++ quote :: deviceName s ++ [quote])]).
  { intros tl Htl. rewrite Htext, Hip, Hport. unfold datagrams in *.
    rewrite !omap_app, Hl1, Hl2, Hl3, Hl4, Htl. reflexivity. }
  destruct (button_low e); cbn [snd].
  - now apply Hall.
  - rewrite <- (app_nil_r (l1 ++ _)). now apply Hall.
Qed.

Lemma heartbeat_datagram_witness :
  datagrams (snd (loop (sample_env [] 0 1000 2000) initial_state))
  = [(str "10.4.20.41", 7411, str "tally-ho " ++ quote :: str "device-name" ++ [quote])].
Proof.
  refine (heartbeat_datagram (sample_env [] 0 1000 2000) initial_state
            eq_refl eq_refl eq_refl _ _); simpl; lia.
Defined.

(** ** The watchdog within [loop] *)

(** X16: a datagram of 1 to 254 bytes keeps the device CONNECTED in
    the iteration that receives it, provided the clock reading of the
    watchdog is at most 3,000,000 us after the reading taken on
    receipt and the counter did not wrap in between. *)
Theorem datagram_keeps_connected (e : Env) (s : State) :
  wifi_loop e = true -> (0 < length (packet e) < 255)%nat ->
  0 <= micros_recv e <= micros_diff e -> micros_diff e < 4294967296 ->
  micros_diff e - micros_recv e <= 3000000 ->
  iteration_state e s = Some CONNECTED.
Proof.
  intros Hloop Hpkt Hclk Hmax Hgap.
  unfold iteration_state. rewrite Hloop.
  rewrite (receive_short e _ Hpkt).
  destruct (handleReceivedMessage e _ _) as [s2 l2] eqn:Hh.
  pose proof (handleReceivedMessage_eq e (c_str (packet e))
                (fst (checkWiFiConnection e s))) as Heq.
  cbv zeta in Heq. rewrite Hh in Heq. injection Heq as Hs2 _.
  unfold watchdog_state. rewrite Hs2. cbn [timeLastPackageReceived set_strip
                                       set_timeLastPackageReceived].
  unfold to_uint32. rewrite !Z.mod_small by lia.
  rewrite diffMicroSeconds_forward by lia.
  replace (3000000 <? _) with false by (symmetry; apply Z.ltb_ge; lia).
  reflexivity.
Qed.

Lemma datagram_keeps_connected_witness :
  iteration_state (sample_env (str "junk") 9000000 12000000 500) initial_state
  = Some CONNECTED.
Proof.
  refine (datagram_keeps_connected (sample_env (str "junk") 9000000 12000000 500)
            initial_state eq_refl _ _ _ _).
  - simpl. lia.
  - simpl. lia.
  - reflexivity.
  - discriminate.
Defined.

Lemma rendered_app (l1 l2 : list Event) :
  rendered (l1 ++ l2) = rendered l1 ++ rendered l2.
Proof. apply omap_app. Qed.

Lemma logMessageOnce_silent (m : string) (s : State) :
  rendered (snd (logMessageOnce m s)) = [] /\
  strip (fst (logMessageOnce m s)) = strip s.
Proof. unfold logMessageOnce. destruct (String.eqb _ _); split; reflexivity. Qed.

Lemma heartbeat_silent (e : Env) (s : State) :
  rendered (snd (heartbeat e s)) = [] /\ strip (fst (heartbeat e s)) = strip s.
Proof.
  unfold heartbeat, sendTallyStatus, andthen, emit, logMessageOnce.
  destruct (heartbeat_due e); [|split; reflexivity].
  destruct (wifi_send e); destruct (String.eqb _ _); split; reflexivity.
Qed.

Lemma checkWiFiConnection_silent (e : Env) (s : State) :
  rendered (snd (checkWiFiConnection e s)) = [].
Proof.
  unfold checkWiFiConnection, andthen, emit, logMessageOnce.
  destruct (wifi_check e); [reflexivity|].
  destruct (String.eqb _ _); reflexivity.
Qed.

Lemma same_config_sized (s s' : State) :
  same_config s s' -> strip_sized s -> strip_sized s'.
Proof.
  intros (_ & _ & _ & Hcount & Hlen). unfold strip_sized.
  rewrite Hcount, Hlen. tauto.
Qed.

(** X17: when the watchdog of an iteration finds the device
    DISCONNECTED, the last frame the iteration sends to the strip is
    all red, also when a command was rendered earlier in the same
    iteration, and the strip is left all red. *)
Theorem disconnected_overrides_command (e : Env) (s : State) :
  strip_sized s ->
  iteration_state e s = Some DISCONNECTED ->
  last (rendered (snd (loop e s))) = Some (replicate (length (strip s)) 16711680) /\
  forall s', fst (loop e s) = Running s' ->
             strip s' = replicate (length (strip s)) 16711680.
Proof.
  intros Hsz Hit. unfold iteration_state in Hit. unfold loop, loop_network.
  destruct (checkWiFiConnection e s) as [s1 l1] eqn:Hc.
  pose proof (checkWiFiConnection_silent e s) as Hl1.
  pose proof (checkWiFiConnection_config e s) as Hc1.
  rewrite Hc in Hl1, Hc1. cbn [fst snd] in Hl1, Hc1, Hit.
  destruct (wifi_loop e); [|discriminate].
  destruct (receive e s1) as [[s2 l2]|] eqn:Hr; [|discriminate].
  injection Hit as Hst.
  pose proof (receive_config _ _ _ _ Hr) as Hc2.
  pose proof (same_config_trans _ _ _ Hc1 Hc2) as Hc12.
  pose proof (same_config_sized _ _ Hc12 Hsz) as Hsz2.
  destruct Hc12 as (_ & _ & _ & _ & Hlen).
  unfold watchdog_state in Hst. unfold andthen, watchdog.
  destruct (3000000 <? _); [|discriminate].
  unfold andthen. rewrite (updateLEDs_sized 255 0 0 s2 Hsz2).
  destruct (logMessageOnce "DISCONNECTED" _) as [s3 l3] eqn:Hlog.
  destruct (logMessageOnce_silent "DISCONNECTED"
              (set_strip (replicate (length (strip s2)) (Color 255 0 0)) s2))
    as [Hl3 Hs3].
  rewrite Hlog in Hl3, Hs3. cbn [fst snd strip set_strip] in Hl3, Hs3.
  destruct (heartbeat e s3) as [s4 l4] eqn:Hh.
  destruct (heartbeat_silent e s3) as [Hl4 Hs4].
  rewrite Hh in Hl4, Hs4. cbn [fst snd] in Hl4, Hs4.
  assert (Hlast : forall tl, rendered tl = [] ->
    last (rendered ((l1 ++ l2 ++
            ([StripShow (replicate (length (strip s2)) (Color 255 0 0))] ++ l3) ++ l4)
            ++ tl))
    = Some (replicate (length (strip s)) 16711680)).
  { intros tl Htl. rewrite !rendered_app, Hl1, Hl3, Hl4, Htl, Hlen.
    cbn [app]. change (rendered [StripShow ?px]) with [px].
    rewrite !app_nil_r. apply last_snoc. }
  destruct (button_low e); cbn [fst snd].
  - split; [now apply Hlast|discriminate].
  - split.
    + rewrite <- (app_nil_r (l1 ++ _)). now apply Hlast.
    + intros s' [= <-]. now rewrite Hs4, Hs3, Hlen.
Qed.

Lemma disconnected_overrides_command_witness :
  let e := sample_env (str "O0/0/255") 0 3000001 500 in
  rendered (snd (loop e initial_state))
  = [replicate 16 255; replicate 16 16711680] /\
  last (rendered (snd (loop e initial_state))) = Some (replicate 16 16711680).
Proof.
  intros e. split; [reflexivity|].
  refine (proj1 (disconnected_overrides_command e initial_state _ _)).
  - split; [reflexivity|discriminate].
  - reflexivity.
Defined.

(** ** The configuration *)

Lemma c_str_clean (l : list ascii) :
  forallb (fun a => negb (Ascii.eqb a NUL)) l = true -> c_str l = l.
Proof.
  induction l as [|c l IH]; simpl; [reflexivity|].
  intros H. apply andb_true_iff in H as [Hc Hl].
  apply negb_true_iff in Hc. rewrite Hc. now rewrite IH.
Qed.

Lemma strcpy_fits (size : nat) (l : list ascii) :
  (length l < size)%nat ->
  forallb (fun a => negb (Ascii.eqb a NUL)) l = true ->
  strcpy size l = Some l.
Proof.
  intros Hlen Hclean. unfold strcpy. rewrite (c_str_clean l Hclean).
  now apply Nat.ltb_lt in Hlen as ->.
Qed.

Lemma strcpy_Some (size : nat) (v w : list ascii) :
  strcpy size v = Some w ->
  (length w <? size)%nat = true /\
  forallb (fun a => negb (Ascii.eqb a NUL)) w = true.
Proof.
  unfold strcpy. destruct (length (c_str v) <? size)%nat eqn:Hlen; [|discriminate].
  intros [= <-]. split; [exact Hlen|apply c_str_no_NUL].
Qed.

Lemma toInt_fits (v : list ascii) : fits_int (toInt v) = true.
Proof.
  unfold toInt, conv_d, fits_int.
  destruct (scan_sign _) as [neg s1].
  destruct (scan_digits 10 0 false s1) as [[n seen] rest].
  destruct seen; apply andb_true_iff; unfold INT_MIN, INT_MAX; split;
    (apply Z.leb_le; lia).
Qed.

Lemma config_document_lookup (c : Config) :
  config_document c !! "deviceName"%string = Some (JString (cfg_deviceName c)) /\
  config_document c !! "hubIp"%string = Some (JString (cfg_hubIp c)) /\
  config_document c !! "hubPort"%string = Some (JInt (cfg_hubPort c)) /\
  config_document c !! "ledPin"%string = Some (JInt (cfg_ledPin c)) /\
  config_document c !! "ledCount"%string = Some (JInt (cfg_ledCount c)).
Proof. unfold config_document. repeat split; by simplify_map_eq. Qed.

Lemma loadConfig_document (pn : list ascii -> Z) (c c0 : Config) :
  config_fits c = true ->
  loadConfig pn true (Some (Json (config_document c))) c0 = Some c.
Proof.
  unfold config_fits, fits_int. intros H.
  repeat (apply andb_true_iff in H as [H ?]).
  destruct (config_document_lookup c) as (E1 & E2 & E3 & E4 & E5).
  unfold loadConfig. rewrite E1, E2, E3, E4, E5. cbn [as_c_str as_int mbind option_bind].
  rewrite !strcpy_fits by (assumption || now apply Nat.ltb_lt).
  cbn [mbind option_bind].
  repeat match goal with
         | Ha : (INT_MIN <=? ?z) && (?z <=? INT_MAX) = true |- _ =>
             rewrite Ha; clear Ha
         end.
  destruct c; reflexivity.
Qed.

(** X18: what [saveConfigCallback] writes, [loadConfig] reads back:
    after a save that could open the file, loading restores the five
    values saved, whatever the globals held before, provided the two
    strings fit their arrays and the numbers fit an [int]. *)
Theorem saved_configuration_is_restored
    (pn : list ascii -> Z) (c c0 : Config) (file : option FileContent) :
  config_fits c = true ->
  loadConfig pn true (fst (saveConfigCallback true c file)) c0 = Some c.
Proof. intros Hfit. cbn [saveConfigCallback fst]. now apply loadConfig_document. Qed.

Lemma saved_configuration_is_restored_witness :
  loadConfig toInt true
    (fst (saveConfigCallback true (mkConfig (str "stage-left") (str "10.0.0.2") 7411 5 8)
            None))
    default_config
  = Some (mkConfig (str "stage-left") (str "10.0.0.2") 7411 5 8).
Proof.
  exact (saved_configuration_is_restored toInt
           (mkConfig (str "stage-left") (str "10.0.0.2") 7411 5 8)
           default_config None eq_refl).
Defined.

(** X19: [loadConfig] leaves the globals as they are when
    [/config.json] does not exist, cannot be opened, or does not
    parse. *)
Theorem loadConfig_without_usable_file
    (pn : list ascii -> Z) (open_ok : bool) (file : option FileContent) (c : Config) :
  file = None \/ open_ok = false \/ file = Some Unparsable ->
  loadConfig pn open_ok file c = Some c.
Proof.
  intros [->|[->| ->]]; unfold loadConfig; try reflexivity.
  - now destruct file.
  - now destruct open_ok.
Qed.

Lemma loadConfig_without_usable_file_witness :
  loadConfig toInt true (Some Unparsable) default_config = Some default_config.
Proof.
  apply (loadConfig_without_usable_file toInt true (Some Unparsable) default_config).
  right. right. reflexivity.
Defined.

(** X20: a configuration file that parses but holds no string under
    "deviceName" makes [loadConfig] hand a null pointer to [strcpy]. *)
Theorem loadConfig_missing_name_faults
    (pn : list ascii -> Z) (doc : gmap string JsonValue) (c : Config) :
  as_c_str (doc !! "deviceName"%string) = None ->
  loadConfig pn true (Some (Json doc)) c = None.
Proof. intros H. unfold loadConfig. now rewrite H. Qed.

Lemma loadConfig_missing_name_faults_witness :
  loadConfig toInt true (Some (Json (<["hubPort"%string := JInt 7411]> ∅)))
             default_config = None.
Proof.
  apply (loadConfig_missing_name_faults toInt
           (<["hubPort"%string := JInt 7411]> ∅) default_config).
  reflexivity.
Defined.

(** X21: a [deviceName] parameter of 32 characters or more (or a
    [hubIp] parameter of 16 or more) makes the [/get] handler write
    past the end of the array. *)
Theorem long_parameter_overflows
    (params : list (string * list ascii)) (c : Config) (v : list ascii) :
  (getParam "deviceName" params = Some v /\ (32 <= length (c_str v))%nat) \/
  (getParam "hubIp" params = Some v /\ (16 <= length (c_str v))%nat) ->
  handle_get params c = None.
Proof.
  assert (Hover : forall size, (size <= length (c_str v))%nat -> strcpy size v = None).
  { intros size Hsz. unfold strcpy.
    now replace (length (c_str v) <? size)%nat with false
      by (symmetry; apply Nat.ltb_ge; lia). }
  intros [[Hp Hlen]|[Hp Hlen]]; unfold handle_get; rewrite Hp, (Hover _ Hlen).
  - reflexivity.
  - now destruct (match getParam "deviceName" params with
                  | Some v0 => strcpy 32 v0 | None => Some (cfg_deviceName c) end).
Qed.

Lemma long_parameter_overflows_witness :
  handle_get [("deviceName"%string, replicate 32 "n"%char)] default_config = None.
Proof.
  apply (long_parameter_overflows
           [("deviceName"%string, replicate 32 "n"%char)] default_config
           (replicate 32 "n"%char)).
  left. split; [reflexivity|]. vm_compute. apply le_n.
Defined.

(** X22: a [/get] request that carries none of the five parameters
    leaves the globals as they are and still rewrites the
    configuration file with them. *)
Theorem get_without_parameters
    (params : list (string * list ascii)) (c : Config) (file : option FileContent) :
  getParam "deviceName" params = None -> getParam "hubIp" params = None ->
  getParam "hubPort" params = None -> getParam "ledPin" params = None ->
  getParam "ledCount" params = None ->
  get_request params true c file
  = Some (c, (Some (Json (config_document c)), [SerialLine "Saving config"])).
Proof.
  intros H1 H2 H3 H4 H5. unfold get_request, handle_get.
  rewrite H1, H2, H3, H4, H5. destruct c; reflexivity.
Qed.

Lemma get_without_parameters_witness :
  get_request [("other"%string, str "1")] true default_config None
  = Some (default_config,
          (Some (Json (config_document default_config)),
           [SerialLine "Saving config"])).
Proof.
  exact (get_without_parameters [("other"%string, str "1")] default_config None
           eq_refl eq_refl eq_refl eq_refl eq_refl).
Defined.

Lemma digit_not_NUL (c : ascii) :
  is_digit 10 c = true -> negb (Ascii.eqb c NUL) = true.
Proof.
  destruct c as [[] [] [] [] [] [] [] []]; vm_compute; intros H;
    first [discriminate H | reflexivity].
Qed.

Lemma c_str_app_clean (l r : list ascii) :
  forallb (fun a => negb (Ascii.eqb a NUL)) l = true ->
  c_str (l ++ r) = l ++ c_str r.
Proof.
  induction l as [|c l IH]; simpl; [reflexivity|].
  intros H. apply andb_true_iff in H as [Hc Hl].
  apply negb_true_iff in Hc. rewrite Hc. now rewrite IH.
Qed.

Lemma stops_c_str (rest : list ascii) : stops 10 rest -> stops 10 (c_str rest).
Proof.
  destruct rest as [|c rest]; simpl; [trivial|].
  destruct (Ascii.eqb c NUL); simpl; trivial.
Qed.

Lemma toInt_leading_numeral (ds rest : list ascii) :
  is_numeral 10 ds = true -> stops 10 rest -> toInt (ds ++ rest) = numeral 10 ds.
Proof.
  intros Hnum Hrest.
  destruct (is_numeral_inv _ _ Hnum) as (_ & Hall & _).
  assert (Hclean : forallb (fun a => negb (Ascii.eqb a NUL)) ds = true).
  { clear -Hall. induction ds as [|c ds IH]; [reflexivity|].
    simpl in *. apply andb_true_iff in Hall as [Hc Hds].
    now rewrite (digit_not_NUL c Hc), IH. }
  unfold toInt. rewrite (c_str_app_clean _ _ Hclean).
  now rewrite conv_d_numeral by (assumption || now apply stops_c_str).
Qed.

(** X23: a numeric parameter of the [/get] form is read like [atol]
    reads it: from a value made of a decimal numeral (fitting an
    [int]) followed by anything that is not a digit, [hubPort]
    receives the number and the rest is ignored. *)
Theorem port_reads_leading_number
    (params : list (string * list ascii)) (c c' : Config) (ds rest : list ascii) :
  handle_get params c = Some c' ->
  getParam "hubPort" params = Some (ds ++ rest) ->
  is_numeral 10 ds = true -> stops 10 rest ->
  cfg_hubPort c' = numeral 10 ds.
Proof.
  unfold handle_get. intros Hget Hp Hnum Hrest.
  destruct (match getParam "deviceName" params with
            | Some v => strcpy 32 v | None => Some (cfg_deviceName c) end);
    [|discriminate].
  destruct (match getParam "hubIp" params with
            | Some v => strcpy 16 v | None => Some (cfg_hubIp c) end);
    [|discriminate].
  cbn [mbind option_bind] in Hget. injection Hget as <-.
  cbn [cfg_hubPort]. rewrite Hp. now apply toInt_leading_numeral.
Qed.

Lemma port_reads_leading_number_witness :
  exists c', handle_get [("hubPort"%string, str "8080/udp")] default_config = Some c' /\
             cfg_hubPort c' = 8080.
Proof.
  eexists. split; [reflexivity|].
  exact (port_reads_leading_number [("hubPort"%string, str "8080/udp")]
           default_config _ (str "8080") (str "/udp")
           eq_refl eq_refl eq_refl eq_refl).
Defined.

(** X24: a numeric parameter whose value is empty or starts with a
    character that is neither white space, a sign nor a digit sets the
    global to 0. *)
Theorem port_without_number_is_zero
    (params : list (string * list ascii)) (c c' : Config) (v : list ascii) :
  handle_get params c = Some c' ->
  getParam "hubPort" params = Some v ->
  match v with
  | [] => True
  | a :: _ => isspace a = false /\ Ascii.eqb a "-" = false /\
              Ascii.eqb a "+" = false /\ is_digit 10 a = false
  end ->
  cfg_hubPort c' = 0.
Proof.
  unfold handle_get. intros Hget Hp Hv.
  destruct (match getParam "deviceName" params with
            | Some v => strcpy 32 v | None => Some (cfg_deviceName c) end);
    [|discriminate].
  destruct (match getParam "hubIp" params with
            | Some v => strcpy 16 v | None => Some (cfg_hubIp c) end);
    [|discriminate].
  cbn [mbind option_bind] in Hget. injection Hget as <-.
  cbn [cfg_hubPort]. rewrite Hp. unfold toInt, conv_d.
  destruct v as [|a v]; [reflexivity|].
  destruct Hv as (Hsp & Hm & Hpl & Hd).
  simpl c_str. destruct (Ascii.eqb a NUL); [reflexivity|].
  simpl. rewrite Hsp. simpl. rewrite Hm, Hpl. simpl.
  unfold is_digit in Hd. destruct (digit_of 10 a); [discriminate|]. reflexivity.
Qed.

Lemma port_without_number_is_zero_witness :
  exists c', handle_get [("hubPort"%string, str "auto")] default_config = Some c' /\
             cfg_hubPort c' = 0.
Proof.
  eexists. split; [reflexivity|].
  refine (port_without_number_is_zero [("hubPort"%string, str "auto")]
            default_config _ (str "auto") eq_refl eq_refl _).
  repeat split.
Defined.

(** X25: the configuration a successful [/get] request leaves fits
    the arrays and the [int] globals again, and the file it saves
    brings back exactly that configuration at the next [loadConfig]. *)
Theorem get_request_survives_reboot
    (pn : list ascii -> Z) (params : list (string * list ascii))
    (c c' c0 : Config) (file file' : option FileContent) (out : list Event) :
  config_fits c = true ->
  get_request params true c file = Some (c', (file', out)) ->
  config_fits c' = true /\ loadConfig pn true file' c0 = Some c'.
Proof.
  intros Hfit Hreq. unfold get_request in Hreq.
  destruct (handle_get params c) as [c1|] eqn:Hget; [|discriminate].
  cbn [mbind option_bind saveConfigCallback] in Hreq.
  injection Hreq as -> <- _.
  assert (Hfit' : config_fits c' = true).
  { unfold config_fits in *.
    repeat (apply andb_true_iff in Hfit as [Hfit ?]).
    unfold handle_get in Hget.
    destruct (match getParam "deviceName" params with
              | Some v => strcpy 32 v | None => Some (cfg_deviceName c) end)
      as [name|] eqn:Hname; [|discriminate].
    destruct (match getParam "hubIp" params with
              | Some v => strcpy 16 v | None => Some (cfg_hubIp c) end)
      as [ip|] eqn:Hip; [|discriminate].
    cbn [mbind option_bind] in Hget. injection Hget as <-.
    cbn [cfg_deviceName cfg_hubIp cfg_hubPort cfg_ledPin cfg_ledCount].
    assert (Hn : (length name <? 32)%nat = true /\
                 forallb (fun a => negb (Ascii.eqb a NUL)) name = true).
    { destruct (getParam "deviceName" params); [now apply (strcpy_Some 32 l)|].
      injection Hname as <-. now split. }
    assert (Hi : (length ip <? 16)%nat = true /\
                 forallb (fun a => negb (Ascii.eqb a NUL)) ip = true).
    { destruct (getParam "hubIp" params); [now apply (strcpy_Some 16 l)|].
      injection Hip as <-. now split. }
    destruct Hn as [-> ->], Hi as [-> ->]. cbn [andb].
    destruct (getParam "hubPort" params); destruct (getParam "ledPin" params);
      destruct (getParam "ledCount" params);
      rewrite ?toInt_fits; cbn [andb];
      repeat match goal with Hz : fits_int _ = true |- _ => rewrite Hz; clear Hz end;
      reflexivity. }
  split; [exact Hfit'|]. now apply loadConfig_document.
Qed.

Lemma get_request_survives_reboot_witness :
  exists c' file' out,
    get_request [("deviceName"%string, str "stage-left"); ("ledCount"%string, str "8")]
                true default_config None = Some (c', (file', out)) /\
    loadConfig toInt true file' default_config
    = Some (mkConfig (str "stage-left") (str "10.4.20.41") 7411 16 8).
Proof.
  eexists _, _, _. split; [reflexivity|].
  exact (proj2 (get_request_survives_reboot toInt
                  [("deviceName"%string, str "stage-left"); ("ledCount"%string, str "8")]
                  default_config _ default_config None _ _ eq_refl eq_refl)).
Defined.

(** ** The hub: [ExternalLink] *)

(** X26: [ExternalLink] always renders a [Link] that opens in a new
    tab with [rel="noreferrer noopener"], whatever [target] and [rel]
    the caller passes, and hands every other property through
    unchanged. *)
Theorem ExternalLink_forces_target_and_rel
    (props : gmap string PropValue) (k : string) :
  el_type (ExternalLink props) = "Link"%string /\
  el_props (ExternalLink props) !! "target"%string = Some (PString "_blank") /\
  el_props (ExternalLink props) !! "rel"%string = Some (PString "noreferrer noopener") /\
  (k <> "target"%string -> k <> "rel"%string ->
   el_props (ExternalLink props) !! k = props !! k).
Proof.
  unfold ExternalLink, spread. cbn [el_type el_props].
  split; [reflexivity|]. split; [|split].
  - apply lookup_union_Some_l. by simplify_map_eq.
  - apply lookup_union_Some_l. by simplify_map_eq.
  - intros Ht Hr. apply lookup_union_r. by simplify_map_eq.
Qed.

Lemma ExternalLink_forces_target_and_rel_witness :
  let props : gmap string PropValue :=
    <["target"%string := PString "_self"]> (<["href"%string := PString "https://example.org"]> ∅) in
  el_props (ExternalLink props) !! "href"%string = Some (PString "https://example.org").
Proof.
  intros props.
  destruct (ExternalLink_forces_target_and_rel props "href") as (_ & _ & _ & Hk).
  rewrite Hk; [reflexivity|discriminate|discriminate].
Defined.
